(** * OMOP_Alchemy: vocabulary lookups and the concept catalog

  A shallow embedding of
    - [omop_alchemy/conventions/vocab_lookups.py]  (class [VocabLookup])
    - [omop_alchemy/conventions/concept_enumerators.py] (class [ConceptEnum]
      and the catalog classes built on it)
  together with the properties of the vocabulary resolution engine.

  Conventions of the embedding.
    - A Python [str] is a [string]; a character is a code point below 256
      (Latin-1), with [str.lower] and [str.isspace] as Python defines them
      on that range.
    - A Python object that the code inspects dynamically (the [unknown]
      sentinel, the [parent] seed, the argument of [is_member]) is a
      [pyval].
    - A method that can raise returns an [outcome]; a method that mutates
      [self] also returns the object after the call.
    - The [defaultdict] behind [self._lookup] is a [gmap string Z] plus the
      factory [return_unknown], called (and its result stored) on a miss. *)

From Stdlib Require Import ZArith NArith Ascii List Relations.
From stdpp Require Import gmap strings list fin_maps.

Local Open Scope Z_scope.

(** ** Python values *)

Module Py.

(** The exceptions that the modelled code can raise; [ArgumentError] is
    SQLAlchemy's. *)
Inductive exn := AttributeError | TypeError | ValueError | ArgumentError.

Inductive outcome (A : Type) :=
| Return (a : A)
| Raise (e : exn).
Arguments Return {A} a.
Arguments Raise {A} e.

(** A member of an [enum.Enum] class: the class it belongs to, its name and
    its value.  Members are singletons, so class and name identify one. *)
Record member := Member { cls_name : string; name : string; value : Z }.

Inductive pyval :=
| PyNone
| PyBool (b : bool)
| PyInt (z : Z)
| PyStr (s : string)
| PyEnum (m : member).

(** [bool(v)]: [None], [False], [0] and [''] are falsy; an [Enum] member
    is always truthy. *)
Definition truthy (v : pyval) : bool :=
  match v with
  | PyNone => false
  | PyBool b => b
  | PyInt z => negb (z =? 0)
  | PyStr s => negb (String.eqb s "")
  | PyEnum _ => true
  end.

Definition same_member (m1 m2 : member) : bool :=
  String.eqb (cls_name m1) (cls_name m2) && String.eqb (name m1) (name m2).

(** [a == b].  [bool] is a subclass of [int]; a plain [Enum] member is equal
    to itself only (never to its value); values of different types are
    unequal. *)
Definition py_eq (a b : pyval) : bool :=
  match a, b with
  | PyNone, PyNone => true
  | PyBool x, PyBool y => Bool.eqb x y
  | PyBool x, PyInt z | PyInt z, PyBool x => z =? (if x then 1 else 0)
  | PyInt x, PyInt y => x =? y
  | PyStr x, PyStr y => String.eqb x y
  | PyEnum x, PyEnum y => same_member x y
  | _, _ => false
  end.

(** [a != b] *)
Definition py_ne (a b : pyval) : bool := negb (py_eq a b).

(** [v in l] for a list [l] *)
Definition py_in (v : pyval) (l : list pyval) : bool := existsb (py_eq v) l.

(** [v.value]: only an [Enum] member has the attribute. *)
Definition attr_value (v : pyval) : outcome Z :=
  match v with
  | PyEnum m => Return (value m)
  | _ => Raise AttributeError
  end.

End Py.
Import Py.

(** ** Strings: [str.lower] and [str.strip] *)

Module Str.

Definition code (c : ascii) : N := N_of_ascii c.

(** The cased upper-case letters below 256: A-Z, and U+00C0..U+00DE
    without the multiplication sign U+00D7. *)
Definition isupper (c : ascii) : bool :=
  let n := code c in
  ((65 <=? n) && (n <=? 90) || (192 <=? n) && (n <=? 222) && negb (n =? 215))%N.

Definition lower_char (c : ascii) : ascii :=
  if isupper c then ascii_of_N (code c + 32) else c.

(** [s.lower()] *)
Fixpoint lower (s : string) : string :=
  match s with
  | EmptyString => EmptyString
  | String c r => String (lower_char c) (lower r)
  end.

(** [str.isspace] on one character: TAB..CR, FS..US, space, NEL, NBSP. *)
Definition isspace (c : ascii) : bool :=
  let n := code c in
  ((9 <=? n) && (n <=? 13) || (28 <=? n) && (n <=? 32)
   || (n =? 133) || (n =? 160))%N.

Fixpoint lstrip (s : string) : string :=
  match s with
  | EmptyString => EmptyString
  | String c r => if isspace c then lstrip r else s
  end.

Fixpoint rstrip (s : string) : string :=
  match s with
  | EmptyString => EmptyString
  | String c r =>
      match rstrip r with
      | EmptyString => if isspace c then EmptyString else String c EmptyString
      | r' => String c r'
      end
  end.

(** [s.strip()] *)
Definition strip (s : string) : string := rstrip (lstrip s).

(** The key under which a term is stored and queried:
    [term.lower().strip()]. *)
Definition normalize (s : string) : string := strip (lower s).

(** A key is normalized when lower-casing and stripping leave it alone. *)
Definition normalized (k : string) : Prop := lower k = k /\ strip k = k.

Definition no_lead (s : string) : Prop :=
  match s with
  | EmptyString => True
  | String c _ => isspace c = false
  end.

End Str.

(** ** [concept_enumerators.py]: [ConceptEnum] and the catalog *)

Module ConceptEnum.

(** A class statement [class C(ConceptEnum): n1 = v1; n2 = v2; ...]: the
    class name and the declarations of its body, in source order. *)
Record EnumClass := { class_name : string; body : list (string * Z) }.

(** [enum.Enum] turns the declarations into members: a declaration whose
    value was already declared creates no member, its name becomes an
    alias of the member declared first with that value. *)
Fixpoint canonical (seen : list Z) (decls : list (string * Z)) : list (string * Z) :=
  match decls with
  | [] => []
  | (n, v) :: rest =>
      if existsb (Z.eqb v) seen then canonical seen rest
      else (n, v) :: canonical (v :: seen) rest
  end.

(** [for s in cls]: the members in definition order, aliases left out. *)
Definition members (cls : EnumClass) : list member :=
  map (fun d => Member (class_name cls) (fst d) (snd d)) (canonical [] (body cls)).

(** [cls(val)]: the member whose value equals [val] (a member of the class
    is returned as it is), [ValueError] when there is none. *)
Definition call (cls : EnumClass) (val : pyval) : outcome member :=
  match find (fun m => py_eq val (PyEnum m) || py_eq val (PyInt (value m))) (members cls) with
  | Some m => Return m
  | None => Raise ValueError
  end.

(** [cls.n]: attribute access by a declared name; an alias gives the member
    declared first with its value. *)
Definition attr (cls : EnumClass) (n : string) : outcome member :=
  match find (fun d => String.eqb (fst d) n) (body cls) with
  | Some d => call cls (PyInt (snd d))
  | None => Raise AttributeError
  end.

Definition member_values (cls : EnumClass) : list pyval :=
  map (fun s => PyInt (value s)) (members cls).

Definition is_member (cls : EnumClass) (val : pyval) : bool :=
  negb (truthy val) || py_in val (map (fun s => PyInt (value s)) (members cls)).

Definition labels (cls : EnumClass) : list string :=
  map (fun s => name s) (members cls).

Definition get_name (cls : EnumClass) (val : pyval) : string :=
  match call cls val with
  | Return m => name m
  | Raise _ => ""
  end.

(** *** The catalog *)

Definition Unknown : EnumClass :=
  {| class_name := "Unknown";
     body := [ ("generic", 4129922); ("gender", 4214687);
               ("condition", 44790729); ("cancer", 36402660);
               ("grade", 4264626); ("stage", 36768646);
               ("stage_edition", 1634449); ("drug_trial", 4090378);
               ("therapeutic_regimen", 4207655) ] |}.

(** [Unknown.is_unknown]: the body of [is_member] with [cls = Unknown]. *)
Definition is_unknown (val : pyval) : bool :=
  negb (truthy val) || py_in val (map (fun s => PyInt (value s)) (members Unknown)).

Definition ModifierFields : EnumClass :=
  {| class_name := "ModifierFields";
     body := [ ("condition_occurrence_id", 1147127); ("drug_exposure_id", 1147707);
               ("procedure_occurrence_id", 1147082); ("episode_id", 756290) ] |}.

Definition ModifierTables : EnumClass :=
  {| class_name := "ModifierTables";
     body := [ ("drug_exposure", 1147339); ("episode", 35225440);
               ("observation", 1147304) ] |}.

Definition TreatmentEpisode : EnumClass :=
  {| class_name := "TreatmentEpisode";
     body := [ ("treatment_regimen", 32531); ("treatment_cycle", 32532);
               ("cancer_surgery", 32939); ("radiotherapy", 32940) ] |}.

Definition Modality : EnumClass :=
  {| class_name := "Modality";
     body := [ ("chemotherapy", 35803401); ("radiotherapy", 35803411) ] |}.

Definition DiseaseEpisodeConcepts : EnumClass :=
  {| class_name := "DiseaseEpisodeConcepts";
     body := [ ("episode_of_care", 32533); ("confined", 32528);
               ("invasive", 32677); ("metastatic", 32944);
               ("stable_disease", 32948); ("disease_progression", 32949);
               ("partial_response", 32947); ("complete_response", 32947) ] |}.

Definition EpisodeTypes : EnumClass :=
  {| class_name := "EpisodeTypes";
     body := [ ("ehr_defined", 32544); ("ehr_derived", 32545);
               ("ehr_prescription", 32838); ("ehr_planned_dispensing", 32837);
               ("ehr_encounter_record", 32827) ] |}.

Definition ConditionModifiers : EnumClass :=
  {| class_name := "ConditionModifiers";
     body := [ ("init_diag", 734306); ("tnm", 734320); ("mets", 36769180) ] |}.

Definition TreatmentModifiers : EnumClass :=
  {| class_name := "TreatmentModifiers"; body := [] |}.

Definition TStageConcepts : EnumClass :=
  {| class_name := "TStageConcepts";
     body := [ ("t0", 1634213); ("t1", 1635564); ("t2", 1635562);
               ("t3", 1634376); ("t4", 1634654); ("ta", 1635682);
               ("tx", 1635682); ("tis", 1635682) ] |}.

Definition NStageConcepts : EnumClass :=
  {| class_name := "NStageConcepts";
     body := [ ("n0", 1633440); ("n1", 1634434); ("n2", 1634119);
               ("n3", 1635320); ("n4", 1635445); ("nx", 1633885) ] |}.

Definition MStageConcepts : EnumClass :=
  {| class_name := "MStageConcepts";
     body := [ ("m0", 1635624); ("m1", 1635142); ("mx", 1633547) ] |}.

Definition GroupStageConcepts : EnumClass :=
  {| class_name := "GroupStageConcepts";
     body := [ ("stage0", 1633754); ("stageI", 1633306); ("stageII", 1634209);
               ("stageIII", 1633650); ("stageIV", 1633650) ] |}.

Definition ConditionConcepts : EnumClass :=
  {| class_name := "ConditionConcepts";
     body := [ ("ehr_problem_list", 32840); ("resolved_condition", 32906);
               ("confirmed_diagnosis", 32893) ] |}.

Definition StageType : EnumClass :=
  {| class_name := "StageType"; body := [ ("c", 0); ("p", 1) ] |}.

Definition StageEdition : EnumClass :=
  {| class_name := "StageEdition";
     body := [ ("_6th", 1634647); ("_7th", 1633496); ("_8th", 1634449) ] |}.

Definition ModifierConcepts : EnumClass :=
  {| class_name := "ModifierConcepts";
     body := [ ("grade", 35918328); ("laterality", 35918306);
               ("derived_value", 45754907); ("tumor_size", 4139794);
               ("primary_tumor", 36768229) ] |}.

Definition DrugExposureConcepts : EnumClass :=
  {| class_name := "DrugExposureConcepts";
     body := [ ("drug_dose", 4162374); ("ehr_drug_admin", 32818);
               ("placebo", 1379408) ] |}.

(** The member a catalog attribute evaluates to, for use as a sentinel or a
    seed; a name that is not declared gives [None]. *)
Definition the (cls : EnumClass) (n : string) : pyval :=
  match attr cls n with
  | Return m => PyEnum m
  | Raise _ => PyNone
  end.

End ConceptEnum.

(** ** The reference data read through a session *)

Module Vocabulary.

(** Modelled from the spec: the table classes [Concept] and
    [Concept_Relationship] (module [tables.vocabulary]) are not among the
    sources.  Their columns are the ones the queries of [vocab_lookups.py]
    name, typed as section 3 of the specification gives them. *)
Record Concept := { concept_id : Z; concept_name : string; domain_id : string }.

Record Concept_Relationship :=
  { concept_id_1 : Z; concept_id_2 : Z; relationship_id : string }.

(** What an open [Session] reads: the rows of the two tables. *)
Record Session :=
  { concept : list Concept; concept_relationship : list Concept_Relationship }.

End Vocabulary.

(** A row of the two-column query of [get_children]. *)
Module Row.

Record t := { concept_id_1 : Z; concept_id_2 : Z }.

#[global] Instance eq_dec : EqDecision t.
Proof. solve_decision. Defined.

End Row.

(** ** [vocab_lookups.py]: class [VocabLookup] *)

Module VocabLookup.

Import Vocabulary Str.

(** The attributes of an instance.  [_correction] is [None] after
    [__init__]; a subclass assigns the chain. *)
Record t := {
  _unknown : pyval;
  _lookup : gmap string Z;
  _domain : option string;
  _parent : option pyval;
  _correction : option (list (string -> string))
}.

Definition set_lookup (m : gmap string Z) (self : t) : t :=
  {| _unknown := _unknown self; _lookup := m; _domain := _domain self;
     _parent := _parent self; _correction := _correction self |}.

(** [self._correction = corrections] *)
Definition set_correction (cs : option (list (string -> string))) (self : t) : t :=
  {| _unknown := _unknown self; _lookup := _lookup self; _domain := _domain self;
     _parent := _parent self; _correction := cs |}.

(** *** Methods run on [self]: they may raise and may mutate the object *)

Definition M (A : Type) : Type := t -> outcome A * t.

Definition ret {A} (a : A) : M A := fun self => (Return a, self).

Definition raise {A} (e : exn) : M A := fun self => (Raise e, self).

Definition bind {A B} (m : M A) (k : A -> M B) : M B :=
  fun self =>
    match m self with
    | (Return a, self') => k a self'
    | (Raise e, self') => (Raise e, self')
    end.

Notation "x <- m ;; k" := (bind m (fun x => k))
  (at level 100, m at next level, right associativity).

(** [for x in l: body(x)] *)
Fixpoint for_each {A} (l : list A) (body : A -> M unit) : M unit :=
  match l with
  | [] => ret tt
  | x :: rest => _ <- body x ;; for_each rest body
  end.

Definition return_unknown : M Z :=
  fun self => (attr_value (_unknown self), self).

(** [self._lookup[key] = v] *)
Definition setitem (key : string) (v : Z) : M unit :=
  fun self => (Return tt, set_lookup (<[key := v]> (_lookup self)) self).

(** [self._lookup[key]] on the [defaultdict]: a missing key calls the factory
    [return_unknown], stores its result under the key and returns it; when
    the factory raises nothing is stored. *)
Definition getitem (key : string) : M Z :=
  fun self =>
    match _lookup self !! key with
    | Some v => (Return v, self)
    | None => (v <- return_unknown ;; _ <- setitem key v ;; ret v) self
    end.

(** [Concept.domain_id == self._domain] *)
Definition in_domain (domain : option string) (row : Concept) : bool :=
  match domain with
  | Some d => String.eqb (domain_id row) d
  | None => false
  end.

Definition get_domain_lookup (session : Session) : M unit :=
  fun self =>
    let d := List.filter (in_domain (_domain self)) (concept session) in
    for_each d (fun row =>
      setitem (strip (lower (concept_name row))) (concept_id row)) self.

(** The rows that the query of [get_children] selects for a sequence of ids:
    the pairs [(concept_id_1, concept_id_2)] of the 'Subsumes' relationships
    whose source is in [concept_id_tuple], without repeats. *)
Definition get_children (concept_id_tuple : list Z) (session : Session) : list Row.t :=
  remove_dups
    (map (fun r => {| Row.concept_id_1 := concept_id_1 r;
                      Row.concept_id_2 := concept_id_2 r |})
       (List.filter
          (fun r => existsb (Z.eqb (concept_id_1 r)) concept_id_tuple
                    && String.eqb (relationship_id r) "Subsumes")
          (concept_relationship session))).

(** [get_children] builds the query and returns it as it is: a [Query]
    object that has not been executed.  [rows] is what executing it gives;
    the object itself has no [len()]. *)
Record Query := { rows : list Row.t }.

(** What a caller hands to [in_()]: a sequence of ids, or a single object
    (a number, [None], a catalog member), which [in_()] refuses. *)
Inductive in_arg :=
| Ids (ids : list Z)
| Single (v : pyval).

(** [self.get_children(concept_id_tuple, session)] as the code calls it. *)
Definition call_get_children (concept_id_tuple : in_arg) (session : Session)
    : outcome Query :=
  match concept_id_tuple with
  | Ids ids => Return {| rows := get_children ids session |}
  | Single _ => Raise ArgumentError
  end.

(** The argument [children]: a sequence of rows, or a query. *)
Inductive children_arg :=
| Rows (l : list Row.t)
| Unexecuted (q : Query).

(** [len(children)] *)
Definition len (children : children_arg) : outcome nat :=
  match children with
  | Rows l => Return (length l)
  | Unexecuted _ => Raise TypeError
  end.

(** The rows that [for child in children] runs through. *)
Definition iterate (children : children_arg) : list Row.t :=
  match children with
  | Rows l => l
  | Unexecuted q => rows q
  end.

(** The recursion of [get_all_concepts_in_hierarchy] is not structural, so
    it runs on [fuel]: [None] is "still running".  The result is the value
    returned ([Some concepts] from the first branch, [None] for falling off
    the end) or the exception raised.  The recursive call receives what
    [get_children] returned, the query; the id of the child is passed to
    [get_children] as it is, not in a tuple.  The list [concepts] is handed
    down unchanged: nothing appends to it. *)
Fixpoint get_all_concepts_in_hierarchy (fuel : nat) (children : children_arg)
    (concepts : list Concept) (session : Session)
    : option (outcome (option (list Concept))) :=
  match fuel with
  | O => None
  | S fuel' =>
      match len children with
      | Raise e => Some (Raise e)
      | Return n =>
          if (n =? 0)%nat then Some (Return (Some concepts))
          else
            (fix loop (cs : list Row.t) : option (outcome (option (list Concept))) :=
               match cs with
               | [] => Some (Return None)
               | child :: rest =>
                   match call_get_children
                           (Single (PyInt (Row.concept_id_2 child))) session with
                   | Raise e => Some (Raise e)
                   | Return next_level =>
                       match get_all_concepts_in_hierarchy fuel'
                               (Unexecuted next_level) concepts session with
                       | None => None
                       | Some (Raise e) => Some (Raise e)
                       | Some (Return _) => loop rest
                       end
                   end
               end) (iterate children)
      end
  end.

(** [self._parent] as an object: [None] when no parent was given. *)
Definition parent_object (self : t) : pyval :=
  match _parent self with
  | Some p => p
  | None => PyNone
  end.

(** [get_lookup] passes [(self._parent)], the object itself and not a tuple,
    to [get_children]. *)
Definition get_lookup (fuel : nat) (session : Session) (self : t)
    : option (outcome unit * t) :=
  match call_get_children (Single (parent_object self)) session with
  | Raise e => Some (Raise e, self)
  | Return first_level =>
      let concepts : list Concept := [] in
      match get_all_concepts_in_hierarchy fuel (Unexecuted first_level)
              concepts session with
      | None => None
      | Some (Raise e) => Some (Raise e, self)
      | Some (Return _) =>
          Some (for_each concepts (fun c =>
                  setitem (lower (concept_name c)) (concept_id c)) self)
      end
  end.

Definition lookup_exact (term : option string) : M Z :=
  let term := match term with None => "" | Some s => s end in
  getitem (strip (lower term)).

(** The loop [for c in self._correction] of [lookup]; [pos] is the position
    of the head of [cs] in the chain.  The second component of the result is
    a ghost: the positions of the corrections that were called, in order. *)
Fixpoint apply_corrections (term : string) (cs : list (string -> string))
    (pos : nat) (value : Z) : M (Z * list nat) :=
  match cs with
  | [] => ret (value, [])
  | c :: rest =>
      fun self =>
        if py_ne (PyInt value) (_unknown self) then (Return (value, []), self)
        else (value' <- getitem (strip (lower (c term))) ;;
              r <- apply_corrections term rest (S pos) value' ;;
              ret (fst r, pos :: snd r)) self
  end.

Definition lookup_traced (term : option string) : M (Z * list nat) :=
  let term := match term with None => "" | Some s => s end in
  value <- getitem (strip (lower term)) ;;
  fun self =>
    match _correction self with
    | Some cs => apply_corrections term cs 0 value self
    | None => (Return (value, []), self)
    end.

Definition lookup (term : option string) : M Z :=
  r <- lookup_traced term ;; ret (fst r).

(** [VocabLookup(unknown, parent, domain)].  The call
    [self.get_lookup(self._lookup, parent.value, session)] evaluates
    [parent.value] and then passes three arguments to a method that takes
    one: a [TypeError]. *)
Definition __init__ (unknown : pyval) (parent : option pyval)
    (domain : option string) (session : Session) : outcome unit * t :=
  let self := {| _unknown := unknown; _lookup := ∅; _domain := domain;
                 _parent := parent; _correction := None |} in
  (_ <- match parent with
        | Some p => _ <- (fun s => (attr_value p, s)) ;; raise TypeError
        | None => ret tt
        end ;;
   match domain with
   | Some _ => get_domain_lookup session
   | None => ret tt
   end) self.

(** The default of the parameter [unknown]. *)
Definition default_unknown : pyval := PyInt 0.

End VocabLookup.

(** ** [joined_mappers.py]: the agents of systemic therapy episodes *)

Module JoinedMappers.

Section Agents.

(** The mapped classes ([Episode_Event], [Drug_Exposure], ...) are not among
    the sources.  What the two properties read of them is taken as given:
    the type of a drug label, the [polymorphic_label] of an event's target
    and its [drug_label], an attribute that the target of another kind of
    event need not have. *)
Context {Label : Type} `{Countable Label}.
Variable Event : Type.
Variable polymorphic_label : Event -> string.
Variable drug_label : Event -> outcome Label.

(** [[s.event_polymorphic.drug_label for s in sact_events
      if s.event_polymorphic.polymorphic_label == 'drug_exposure']]:
    the condition is evaluated first, the label only when it holds. *)
Fixpoint drug_labels (sact_events : list Event) : outcome (list Label) :=
  match sact_events with
  | [] => Return []
  | s :: rest =>
      if String.eqb (polymorphic_label s) "drug_exposure" then
        match drug_label s with
        | Raise e => Raise e
        | Return l =>
            match drug_labels rest with
            | Raise e => Raise e
            | Return ls => Return (l :: ls)
            end
        end
      else drug_labels rest
  end.

(** [list(set(...))]: the elements of the set, in an order that the code
    does not fix (here the one of [elements]). *)
Definition episode_agents (sact_events : list Event) : outcome (list Label) :=
  match drug_labels sact_events with
  | Raise e => Raise e
  | Return ls => Return (elements (list_to_set ls : gset Label))
  end.

(** [[se.episode_agents for se in self.sact_episodes]]; an episode is given
    by its [sact_events]. *)
Fixpoint agents_of (sact_episodes : list (list Event)) : outcome (list (list Label)) :=
  match sact_episodes with
  | [] => Return []
  | se :: rest =>
      match episode_agents se with
      | Raise e => Raise e
      | Return a =>
          match agents_of rest with
          | Raise e => Raise e
          | Return l => Return (a :: l)
          end
      end
  end.

Definition all_agents (sact_episodes : list (list Event)) : outcome (list Label) :=
  match agents_of sact_episodes with
  | Raise e => Raise e
  | Return l => Return (elements (list_to_set (concat l) : gset Label))
  end.

End Agents.

End JoinedMappers.

(** Sample events for the agents. *)
Module AgentsExample.

(** Events as pairs: the polymorphic label, and the drug label when the
    target has one. *)
Definition event : Type := string * outcome string.

Definition cisplatin : event := ("drug_exposure", Return "cisplatin").
Definition etoposide : event := ("drug_exposure", Return "etoposide").
Definition diagnosis : event := ("condition_occurrence", Raise AttributeError).

Definition first_cycle : list event := [diagnosis; cisplatin; etoposide; cisplatin].
Definition second_cycle : list event := [cisplatin].

End AgentsExample.

(** ** What the properties below speak about *)

Module Facts.

Import Vocabulary Str VocabLookup.

(** The concept id that a configured [unknown] stands for: the value of a
    catalog member (what [return_unknown] reads), or the number itself. *)
Definition unknown_value (u : pyval) : option Z :=
  match u with
  | PyEnum m => Some (value m)
  | PyInt z => Some z
  | PyBool b => Some (if b then 1 else 0)
  | _ => None
  end.

(** [grown self self']: [self'] is [self] after some lookups.  The sentinel
    is the same, no entry of the mapping was removed or changed, and every
    new entry has a normalized key and the sentinel's value. *)
Definition grown (self self' : t) : Prop :=
  _unknown self' = _unknown self /\
  forall k : string,
    _lookup self' !! k = _lookup self !! k \/
    (_lookup self !! k = None /\ normalized k /\
     exists v, _lookup self' !! k = Some v /\ attr_value (_unknown self) = Return v).

(** The uses of an instance once it is constructed: exact and corrected
    lookups (whatever their outcome) and the assignment of a chain. *)
Inductive step : t -> t -> Prop :=
| step_lookup_exact term self : step self (snd (lookup_exact term self))
| step_lookup term self : step self (snd (lookup term self))
| step_set_correction cs self : step self (set_correction cs self).

Definition reachable : t -> t -> Prop := rtc step.

(** [constructed self]: [self] is what a call of the constructor returned. *)
Definition constructed (self : t) : Prop :=
  exists unknown parent domain session,
    __init__ unknown parent domain session = (Return tt, self).

Definition keys_normalized (self : t) : Prop :=
  forall k : string, is_Some (_lookup self !! k) -> normalized k.

(** The three outcomes of reading the [defaultdict]. *)
Inductive getitem_spec (key : string) (self : t) : outcome Z * t -> Prop :=
| getitem_hit v :
    _lookup self !! key = Some v ->
    getitem_spec key self (Return v, self)
| getitem_default u :
    _lookup self !! key = None ->
    attr_value (_unknown self) = Return u ->
    getitem_spec key self (Return u, set_lookup (<[key := u]> (_lookup self)) self)
| getitem_raise e :
    _lookup self !! key = None ->
    attr_value (_unknown self) = Raise e ->
    getitem_spec key self (Raise e, self).

(** The Subsumes relationships of a session as a graph on concept ids. *)
Definition edge (session : Session) (a b : Z) : Prop :=
  exists r, In r (concept_relationship session) /\
            concept_id_1 r = a /\ concept_id_2 r = b /\
            relationship_id r = "Subsumes".

Definition acyclic (session : Session) : Prop :=
  forall x, ~ clos_trans Z (edge session) x x.

(** *** Sample data *)

Definition gender_session : Session :=
  {| concept :=
       [ {| concept_id := 1; concept_name := "Male"; domain_id := "Gender" |};
         {| concept_id := 2; concept_name := "Female"; domain_id := "Gender" |};
         {| concept_id := 3; concept_name := " Breast "; domain_id := "Spec Anatomic Site" |} ];
     concept_relationship := [] |}.

(** [VocabLookup(unknown=Unknown.gender, domain='Gender')] *)
Definition gender_lookup : t :=
  snd (__init__ (ConceptEnum.the ConceptEnum.Unknown "gender") None (Some "Gender")
         gender_session).

(** [VocabLookup(unknown=Unknown.generic, domain='Spec Anatomic Site')] *)
Definition site_lookup : t :=
  snd (__init__ (ConceptEnum.the ConceptEnum.Unknown "generic") None
         (Some "Spec Anatomic Site") gender_session).

(** ... with the chain [[c1, c2]] assigned, where [c1] expands the
    abbreviation 'm' and [c2] maps everything to 'female'. *)
Definition expand_m (term : string) : string :=
  if String.eqb term "m" then "male" else term.

Definition gender_lookup_corrected : t :=
  set_correction (Some [expand_m; fun _ => "female"]) gender_lookup.

(** [VocabLookup()]: every parameter at its default. *)
Definition default_lookup : t :=
  snd (__init__ default_unknown None None gender_session).

(** A hierarchy P -> A -> B. *)
Definition chain_session : Session :=
  {| concept :=
       [ {| concept_id := 10; concept_name := "P"; domain_id := "Measurement" |};
         {| concept_id := 11; concept_name := "A"; domain_id := "Measurement" |};
         {| concept_id := 12; concept_name := "B"; domain_id := "Measurement" |} ];
     concept_relationship :=
       [ {| concept_id_1 := 10; concept_id_2 := 11; relationship_id := "Subsumes" |};
         {| concept_id_1 := 11; concept_id_2 := 12; relationship_id := "Subsumes" |} ] |}.

(** A seed of the catalog shape, with P's id as its value. *)
Definition seed_P : pyval :=
  PyEnum {| cls_name := "Hierarchy"; name := "P"; value := 10 |}.

(** The object that [VocabLookup(unknown=Unknown.generic, parent=seed_P)]
    was building when its constructor raised. *)
Definition seeded_lookup : t :=
  snd (__init__ (ConceptEnum.the ConceptEnum.Unknown "generic") (Some seed_P) None
         chain_session).

(** *** Further notions *)

(** The rows that [get_domain_lookup] reads, in table order. *)
Definition domain_rows (domain : string) (session : Session) : list Concept :=
  List.filter (in_domain (Some domain)) (concept session).

(** A string of whitespace only. *)
Fixpoint blank (s : string) : bool :=
  match s with
  | EmptyString => true
  | String c r => isspace c && blank r
  end.

(** The chain of an instance, empty when none is assigned. *)
Definition chain_of (self : t) : list (string -> string) :=
  match _correction self with
  | Some cs => cs
  | None => []
  end.

(** Metadata concepts, among them OMOP's concept 0. *)
Definition metadata_session : Session :=
  {| concept :=
       [ {| concept_id := 0; concept_name := "No matching concept";
            domain_id := "Metadata" |};
         {| concept_id := 5; concept_name := "Male"; domain_id := "Metadata" |};
         {| concept_id := 7; concept_name := "MALE "; domain_id := "Metadata" |} ];
     concept_relationship := [] |}.

(** [VocabLookup(unknown=0, domain='Metadata')] with a chain assigned: the
    sentinel is a number. *)
Definition number_lookup : t :=
  set_correction (Some [fun _ => "male"; fun _ => "female"])
    (snd (__init__ (PyInt 0) None (Some "Metadata") metadata_session)).

End Facts.

(** * Properties *)

(** ** Normalization of terms *)

Section Normalization.

Import Str.

Lemma isspace_lower_char c : isspace (lower_char c) = isspace c.
Proof.
  destruct c as [[] [] [] [] [] [] [] []]; vm_compute; reflexivity.
Qed.

Lemma lower_char_idem c : lower_char (lower_char c) = lower_char c.
Proof.
  destruct c as [[] [] [] [] [] [] [] []]; vm_compute; reflexivity.
Qed.

Lemma lower_idem s : lower (lower s) = lower s.
Proof.
  induction s as [|c r IH]; simpl; [reflexivity|].
  rewrite lower_char_idem, IH. reflexivity.
Qed.

Lemma lower_lstrip s : lower (lstrip s) = lstrip (lower s).
Proof.
  induction s as [|c r IH]; simpl; [reflexivity|].
  rewrite isspace_lower_char. destruct (isspace c); [exact IH|reflexivity].
Qed.

Lemma lower_rstrip s : lower (rstrip s) = rstrip (lower s).
Proof.
  induction s as [|c r IH]; simpl; [reflexivity|].
  rewrite <- IH, isspace_lower_char.
  destruct (rstrip r); simpl; [destruct (isspace c)|]; reflexivity.
Qed.

Lemma lower_strip s : lower (strip s) = strip (lower s).
Proof. unfold strip. rewrite lower_rstrip, lower_lstrip. reflexivity. Qed.

Lemma lstrip_no_lead s : no_lead (lstrip s).
Proof.
  induction s as [|c r IH]; simpl; [exact I|].
  destruct (isspace c) eqn:E; [exact IH|exact E].
Qed.

Lemma lstrip_fix s : no_lead s -> lstrip s = s.
Proof. destruct s as [|c r]; simpl; [reflexivity|]. intros ->. reflexivity. Qed.

Lemma rstrip_no_lead s : no_lead s -> no_lead (rstrip s).
Proof.
  destruct s as [|c r]; simpl; [exact (fun H => H)|].
  intros E. destruct (rstrip r); simpl; [rewrite E; simpl|]; exact E.
Qed.

Lemma rstrip_idem s : rstrip (rstrip s) = rstrip s.
Proof.
  induction s as [|c r IH]; simpl; [reflexivity|].
  destruct (rstrip r) as [|c' r'] eqn:E.
  - destruct (isspace c) eqn:Ec; simpl; [reflexivity|]. rewrite Ec. reflexivity.
  - change (rstrip (String c (String c' r')) = String c (String c' r')).
    simpl in IH |- *. destruct (rstrip r'); rewrite IH; reflexivity.
Qed.

Lemma strip_idem s : strip (strip s) = strip s.
Proof.
  unfold strip.
  rewrite (lstrip_fix (rstrip (lstrip s))).
  - apply rstrip_idem.
  - apply rstrip_no_lead, lstrip_no_lead.
Qed.

Lemma normalize_normalized s : normalized (normalize s).
Proof.
  unfold normalized, normalize. split.
  - rewrite lower_strip, lower_idem. reflexivity.
  - apply strip_idem.
Qed.

Lemma normalize_idem s : normalize (normalize s) = normalize s.
Proof.
  destruct (normalize_normalized s) as [Hl Hs].
  unfold normalize at 1. rewrite Hl. exact Hs.
Qed.

Lemma normalized_fix k : normalized k -> normalize k = k.
Proof. intros [Hl Hs]. unfold normalize. rewrite Hl. exact Hs. Qed.

Lemma normalize_blank : normalize "" = "" /\ normalize "  " = "".
Proof. split; reflexivity. Qed.

Lemma normalize_breast :
  normalize "Breast" = "breast" /\ normalize "breast" = "breast" /\
  normalize " breast " = "breast".
Proof. repeat split; reflexivity. Qed.

End Normalization.

(** ** Reading the [defaultdict] *)

Section Defaultdict.

Import Str VocabLookup Facts.

Lemma getitem_cases key self : getitem_spec key self (getitem key self).
Proof.
  unfold getitem.
  destruct (_lookup self !! key) as [v|] eqn:Hk.
  - by constructor.
  - unfold bind, return_unknown, setitem, ret.
    destruct (attr_value (_unknown self)) as [u|e] eqn:Hu.
    + by constructor.
    + by constructor.
Qed.

Lemma grown_refl self : grown self self.
Proof. split; [done|]. intros k. by left. Qed.

Lemma grown_trans a b c : grown a b -> grown b c -> grown a c.
Proof.
  intros [Hu1 H1] [Hu2 H2]. split; [congruence|].
  intros k.
  destruct (H1 k) as [E1|(N1 & Hn1 & v1 & S1 & A1)];
    destruct (H2 k) as [E2|(N2 & Hn2 & v2 & S2 & A2)].
  - left. congruence.
  - right. split; [congruence|]. split; [done|].
    exists v2. split; [done|congruence].
  - right. split; [done|]. split; [done|].
    exists v1. split; [congruence|done].
  - congruence.
Qed.

Lemma grown_set_correction cs self : grown self (set_correction cs self).
Proof. split; [done|]. intros k. by left. Qed.

Lemma getitem_grown key self :
  normalized key -> grown self (snd (getitem key self)).
Proof.
  intros Hn. destruct (getitem_cases key self) as [v Hv|u Hk Hu|e Hk He]; simpl.
  - apply grown_refl.
  - split; [done|]. intros k. simpl.
    destruct (decide (key = k)) as [<-|Hne].
    + right. rewrite lookup_insert_eq. eauto.
    + left. by rewrite lookup_insert_ne.
  - apply grown_refl.
Qed.

Lemma apply_corrections_grown term cs pos value self :
  grown self (snd (apply_corrections term cs pos value self)).
Proof.
  revert pos value self. induction cs as [|c rest IH]; intros pos value self; simpl.
  - apply grown_refl.
  - destruct (py_ne (PyInt value) (_unknown self)); [apply grown_refl|].
    unfold bind at 1.
    pose proof (getitem_grown (strip (lower (c term))) self
                  (normalize_normalized (c term))) as Hg.
    destruct (getitem (strip (lower (c term))) self) as [[v'|e] s1]; simpl in Hg |- *;
      [|exact Hg].
    unfold bind, ret. specialize (IH (S pos) v' s1).
    destruct (apply_corrections term rest (S pos) v' s1) as [[r|e] s2]; simpl in IH |- *;
      by eapply grown_trans.
Qed.

Lemma lookup_exact_grown term self : grown self (snd (lookup_exact term self)).
Proof. unfold lookup_exact. apply getitem_grown, normalize_normalized. Qed.

Lemma lookup_traced_grown term self : grown self (snd (lookup_traced term self)).
Proof.
  unfold lookup_traced. set (tm := match term with Some s => s | None => "" end).
  unfold bind.
  pose proof (getitem_grown (strip (lower tm)) self (normalize_normalized tm)) as Hg.
  destruct (getitem (strip (lower tm)) self) as [[v|e] s1]; simpl in Hg |- *; [|exact Hg].
  destruct (_correction s1) as [cs|]; [|exact Hg].
  eapply grown_trans; [exact Hg|apply apply_corrections_grown].
Qed.

Lemma lookup_snd term self :
  snd (lookup term self) = snd (lookup_traced term self).
Proof.
  unfold lookup, bind, ret. by destruct (lookup_traced term self) as [[r|e] s].
Qed.

Lemma lookup_grown term self : grown self (snd (lookup term self)).
Proof. rewrite lookup_snd. apply lookup_traced_grown. Qed.

Lemma reachable_grown self0 self : reachable self0 self -> grown self0 self.
Proof.
  induction 1 as [|a b c Hstep _ IH]; [apply grown_refl|].
  eapply grown_trans; [|exact IH].
  destruct Hstep;
    [apply lookup_exact_grown|apply lookup_grown|apply grown_set_correction].
Qed.

End Defaultdict.

(** ** Construction *)

Section Construction.

Import Vocabulary Str VocabLookup Facts.

Lemma setitem_rows_keys (rows : list Concept) self :
  keys_normalized self ->
  keys_normalized
    (snd (for_each rows (fun row =>
            setitem (strip (lower (concept_name row))) (concept_id row)) self)).
Proof.
  revert self. induction rows as [|row rest IH]; intros self Hk; simpl; [exact Hk|].
  unfold bind, setitem at 1. apply IH.
  intros k [v Hv]. simpl in Hv.
  destruct (decide (strip (lower (concept_name row)) = k)) as [<-|Hne].
  - apply normalize_normalized.
  - rewrite lookup_insert_ne in Hv by done. apply Hk. by exists v.
Qed.

Lemma get_domain_lookup_keys session self :
  keys_normalized self -> keys_normalized (snd (get_domain_lookup session self)).
Proof. intros Hk. unfold get_domain_lookup. by apply setitem_rows_keys. Qed.

Lemma init_keys unknown parent domain session :
  keys_normalized (snd (__init__ unknown parent domain session)).
Proof.
  assert (Hempty : forall u d p c, keys_normalized
            {| _unknown := u; _lookup := ∅; _domain := d; _parent := p;
               _correction := c |}).
  { intros u d p c k [v Hv]. simpl in Hv. by rewrite lookup_empty in Hv. }
  unfold __init__, bind, raise, ret.
  destruct parent as [p|].
  - destruct (attr_value p); simpl; apply Hempty.
  - destruct domain as [d|]; simpl; [|apply Hempty].
    apply get_domain_lookup_keys, Hempty.
Qed.

Lemma grown_keys a b : grown a b -> keys_normalized a -> keys_normalized b.
Proof.
  intros [_ Hg] Hk k [v Hv].
  destruct (Hg k) as [E|(_ & Hn & _)]; [|exact Hn].
  apply Hk. rewrite <- E. by exists v.
Qed.

(** [get_lookup] raises at its first statement, for every instance: the
    object is as it was. *)
Lemma get_lookup_raises fuel session self :
  get_lookup fuel session self = Some (Raise ArgumentError, self).
Proof. reflexivity. Qed.

Lemma get_lookup_unchanged fuel session self x :
  get_lookup fuel session self = Some x -> snd x = self.
Proof. rewrite get_lookup_raises. by intros [= <-]. Qed.

End Construction.

(** ** Exact lookups *)

Section Exact.

Import Str VocabLookup Facts.

Lemma lookup_exact_same_key t1 t2 self :
  normalize t1 = normalize t2 ->
  lookup_exact (Some t1) self = lookup_exact (Some t2) self.
Proof. unfold lookup_exact, normalize. by intros ->. Qed.

Lemma lookup_exact_None self : lookup_exact None self = lookup_exact (Some "") self.
Proof. reflexivity. Qed.

(** Asking again gives the same answer and leaves the object as the first
    call left it. *)
Lemma getitem_again key self :
  getitem key (snd (getitem key self)) = getitem key self.
Proof.
  destruct (getitem_cases key self) as [v Hv|u Hk Hu|e Hk He]; simpl.
  - unfold getitem. by rewrite Hv.
  - unfold getitem. simpl. by rewrite lookup_insert_eq.
  - unfold getitem, bind, return_unknown. by rewrite Hk, He.
Qed.

(** With a catalog member as the sentinel, an exact lookup returns. *)
Lemma lookup_exact_returns term self u :
  attr_value (_unknown self) = Return u ->
  exists v self', lookup_exact term self = (Return v, self').
Proof.
  intros Hu. unfold lookup_exact.
  destruct (getitem_cases (strip (lower match term with Some s => s | None => "" end)) self)
    as [v Hv|u' Hk Hu'|e Hk He]; eauto.
  congruence.
Qed.

Lemma grown_values self0 self k v :
  grown self0 self -> _lookup self !! k = Some v ->
  _lookup self0 !! k = Some v \/ attr_value (_unknown self0) = Return v.
Proof.
  intros [_ Hg] Hv. destruct (Hg k) as [E|(_ & _ & v' & Hv' & Hu)].
  - left. congruence.
  - right. congruence.
Qed.

End Exact.

(** ** The unknown sentinel and exact lookups *)

Section ExactLookup.

Import Str VocabLookup Facts.

(** On an instance whose sentinel has a value [u] (the number
    [return_unknown] gives), however the instance was used since it was
    constructed, [lookup_exact(t)] returns, and what it returns is either a
    concept id that the constructor put into the mapping or exactly [u]. *)
Lemma lookup_exact_range self0 self term u :
  constructed self0 ->
  reachable self0 self ->
  attr_value (_unknown self0) = Return u ->
  exists v self',
    lookup_exact term self = (Return v, self') /\
    ((exists k, _lookup self0 !! k = Some v) \/ v = u).
Proof.
  intros _ Hr Hu. apply reachable_grown in Hr.
  assert (Hu' : attr_value (_unknown self) = Return u)
    by (destruct Hr as [-> _]; exact Hu).
  unfold lookup_exact.
  destruct (getitem_cases (strip (lower match term with Some s => s | None => "" end)) self)
    as [v Hv|u' Hk Hu''|e Hk He].
  - exists v, self. split; [done|].
    destruct (grown_values _ _ _ _ Hr Hv) as [H|H]; [left; eauto|right; congruence].
  - eexists _, _. split; [done|]. right. congruence.
  - congruence.
Qed.

(** Without a value on the sentinel the same holds of every value that is
    returned; a miss then raises [AttributeError] and stores nothing. *)
Lemma lookup_exact_outcomes self0 self term :
  reachable self0 self ->
  match lookup_exact term self with
  | (Return v, _) =>
      (exists k, _lookup self0 !! k = Some v) \/ attr_value (_unknown self0) = Return v
  | (Raise e, self') =>
      self' = self /\ attr_value (_unknown self0) = Raise e
  end.
Proof.
  intros Hr. apply reachable_grown in Hr.
  assert (Hu : _unknown self = _unknown self0) by (by destruct Hr).
  unfold lookup_exact.
  destruct (getitem_cases (strip (lower match term with Some s => s | None => "" end)) self)
    as [v Hv|u' Hk Hu''|e Hk He].
  - destruct (grown_values _ _ _ _ Hr Hv) as [H|H]; [left; eauto|by right].
  - right. congruence.
  - split; [done|congruence].
Qed.

(** C2.  With a number as the sentinel a miss returns nothing.  On
    [VocabLookup()], whose sentinel is the default 0 and whose mapping is
    empty, [lookup_exact] of every term raises [AttributeError] instead of
    returning 0.  On [VocabLookup(unknown=0, domain='Metadata')], where
    concept 0 itself is in the mapping, a term that is found is returned
    (also the id 0) and a term that is not found raises. *)
Theorem lookup_exact_miss_without_value :
  __init__ default_unknown None None gender_session = (Return tt, default_lookup) /\
  unknown_value (_unknown default_lookup) = Some 0 /\
  _lookup default_lookup = ∅ /\
  (forall term, lookup_exact term default_lookup = (Raise AttributeError, default_lookup)) /\
  unknown_value (_unknown number_lookup) = Some 0 /\
  fst (lookup_exact (Some "Male") number_lookup) = Return 7 /\
  fst (lookup_exact (Some "No matching concept") number_lookup) = Return 0 /\
  lookup_exact (Some "unknown") number_lookup = (Raise AttributeError, number_lookup).
Proof.
  split; [reflexivity|]. split; [reflexivity|]. split; [reflexivity|].
  split; [|repeat split; reflexivity].
  intros term. unfold lookup_exact, getitem.
  change (_lookup default_lookup) with (∅ : gmap string Z).
  rewrite lookup_empty. reflexivity.
Qed.

(** C4.  [VocabLookup()] keeps the default [unknown=0]; the factory of the
    mapping reads [self._unknown.value], which a number does not have.  On
    that instance [lookup_exact(None)], [lookup_exact('')] and
    [lookup_exact('  ')] all miss and raise [AttributeError]. *)
Theorem lookup_exact_default_raises :
  __init__ default_unknown None None gender_session = (Return tt, default_lookup) /\
  lookup_exact None default_lookup = (Raise AttributeError, default_lookup) /\
  lookup_exact (Some "") default_lookup = (Raise AttributeError, default_lookup) /\
  lookup_exact (Some "  ") default_lookup = (Raise AttributeError, default_lookup).
Proof. repeat split; reflexivity. Qed.

(** What holds of blank terms on every instance: [None], [''] and ['  ']
    are the same query, whether from one state or one after the other. *)
Lemma lookup_exact_blank self :
  lookup_exact None self = lookup_exact (Some "") self /\
  lookup_exact (Some "  ") self = lookup_exact (Some "") self /\
  lookup_exact (Some "") (snd (lookup_exact None self)) = lookup_exact None self /\
  lookup_exact (Some "  ") (snd (lookup_exact None self)) = lookup_exact None self.
Proof.
  repeat split; try reflexivity;
    unfold lookup_exact; change (strip (lower "  ")) with (strip (lower ""));
    apply getitem_again.
Qed.

(** C5.  Every key of the mapping of a constructed instance is normalized,
    after the lookups that followed and after either way of populating it
    ([get_domain_lookup], [get_lookup]); and ['Breast'], ['breast'] and
    [' breast '] are one query: the same outcome from one state, and the same
    outcome when asked one after the other. *)
Theorem keys_normalized_insensitive self0 self :
  constructed self0 ->
  reachable self0 self ->
  keys_normalized self /\
  (forall session, keys_normalized (snd (get_domain_lookup session self))) /\
  (forall fuel session x,
     get_lookup fuel session self = Some x -> keys_normalized (snd x)) /\
  lookup_exact (Some "Breast") self = lookup_exact (Some "breast") self /\
  lookup_exact (Some " breast ") self = lookup_exact (Some "breast") self /\
  lookup_exact (Some "breast") (snd (lookup_exact (Some "Breast") self))
    = lookup_exact (Some "Breast") self /\
  lookup_exact (Some " breast ")
      (snd (lookup_exact (Some "breast") (snd (lookup_exact (Some "Breast") self))))
    = lookup_exact (Some "Breast") self.
Proof.
  intros (unknown & parent & domain & session & Hinit) Hr.
  assert (Hk : keys_normalized self).
  { eapply grown_keys; [by apply reachable_grown|].
    pose proof (init_keys unknown parent domain session) as H.
    by rewrite Hinit in H. }
  split; [exact Hk|]. split; [intros s; by apply get_domain_lookup_keys|].
  split.
  { intros fuel s x Hx. apply get_lookup_unchanged in Hx. by rewrite Hx. }
  split; [reflexivity|]. split; [reflexivity|].
  assert (Ha : lookup_exact (Some "breast") (snd (lookup_exact (Some "Breast") self))
               = lookup_exact (Some "Breast") self)
    by (unfold lookup_exact; apply getitem_again).
  split; [exact Ha|].
  rewrite Ha. unfold lookup_exact. apply getitem_again.
Qed.

Lemma keys_normalized_insensitive_witness :
  keys_normalized (snd (lookup_exact (Some " X ") site_lookup)) /\
  lookup_exact (Some "Breast") (snd (lookup_exact (Some " X ") site_lookup))
    = lookup_exact (Some "breast") (snd (lookup_exact (Some " X ") site_lookup)) /\
  fst (lookup_exact (Some " breast ") (snd (lookup_exact (Some " X ") site_lookup)))
    = Return 3.
Proof.
  assert (Hc : constructed site_lookup).
  { exists (ConceptEnum.the ConceptEnum.Unknown "generic"), None,
      (Some "Spec Anatomic Site"), gender_session. reflexivity. }
  assert (Hr : reachable site_lookup (snd (lookup_exact (Some " X ") site_lookup))).
  { eapply rtc_l; [apply step_lookup_exact|apply rtc_refl]. }
  pose proof (keys_normalized_insensitive _ _ Hc Hr) as (H1 & _ & _ & H2 & _).
  exact (conj H1 (conj H2 eq_refl)).
Defined.

End ExactLookup.

(** ** Lookups through the correction chain *)

Section Corrected.

Import Str VocabLookup Facts.

Lemma unknown_value_ne (u : pyval) (v : Z) :
  unknown_value u <> Some v -> py_ne (PyInt v) u = true.
Proof.
  unfold py_ne. destruct u as [|b|z|s|m]; simpl; intros H; try reflexivity.
  - apply negb_true_iff, Z.eqb_neq. congruence.
  - apply negb_true_iff, Z.eqb_neq. congruence.
Qed.

Lemma getitem_unknown key self : _unknown (snd (getitem key self)) = _unknown self.
Proof. by destruct (getitem_cases key self). Qed.

Lemma getitem_correction key self :
  _correction (snd (getitem key self)) = _correction self.
Proof. by destruct (getitem_cases key self). Qed.

(** The loop stops before its first call when the value is not the
    sentinel. *)
Lemma apply_corrections_break term cs pos value self :
  py_ne (PyInt value) (_unknown self) = true ->
  apply_corrections term cs pos value self = (Return (value, []), self).
Proof. intros H. destruct cs as [|c rest]; simpl; [reflexivity|]. by rewrite H. Qed.

Lemma lookup_break self term v self' :
  lookup_exact term self = (Return v, self') ->
  py_ne (PyInt v) (_unknown self) = true ->
  lookup term self = (Return v, self') /\
  lookup_traced term self = (Return (v, []), self').
Proof.
  intros He Hv.
  assert (Ht : lookup_traced term self = (Return (v, []), self')).
  { unfold lookup_traced, lookup_exact in *. unfold bind. rewrite He.
    assert (Hu : _unknown self' = _unknown self).
    { change self' with (snd (Return v, self')). rewrite <- He. apply getitem_unknown. }
    destruct (_correction self') as [cs|]; [|reflexivity].
    apply apply_corrections_break. by rewrite Hu. }
  split; [|exact Ht]. unfold lookup, bind, ret. by rewrite Ht.
Qed.

(** C8.  When [lookup_exact(t)] returns a value that is not the configured
    unknown, [lookup(t)] returns that value and leaves the object in the
    same state, and no correction of the chain is called. *)
Theorem lookup_hit_is_exact self term v self' :
  lookup_exact term self = (Return v, self') ->
  unknown_value (_unknown self) <> Some v ->
  lookup term self = (Return v, self') /\
  lookup_traced term self = (Return (v, []), self').
Proof.
  intros He Hv. apply lookup_break; [exact He|]. by apply unknown_value_ne.
Qed.

Lemma lookup_hit_is_exact_witness :
  lookup (Some "Male") gender_lookup_corrected = (Return 1, gender_lookup_corrected) /\
  lookup_traced (Some "Male") gender_lookup_corrected
    = (Return (1, []), gender_lookup_corrected).
Proof.
  apply (lookup_hit_is_exact gender_lookup_corrected (Some "Male") 1
           gender_lookup_corrected).
  - reflexivity.
  - simpl. intros H. discriminate H.
Defined.

(** A catalog member is never equal to a number, so with a member as the
    sentinel the test [value != self._unknown] always holds: [lookup] is
    [lookup_exact], whatever the chain. *)
Lemma lookup_member_sentinel self term m :
  _unknown self = PyEnum m ->
  lookup term self = lookup_exact term self /\
  snd (lookup_traced term self) = snd (lookup_exact term self) /\
  forall r, fst (lookup_traced term self) = Return r -> snd r = [].
Proof.
  intros Hm. pose proof (lookup_exact_returns term self (value m)) as (v & s' & He).
  { by rewrite Hm. }
  destruct (lookup_break self term v s' He) as [Hl Ht].
  - by rewrite Hm.
  - rewrite Hl, Ht, He. repeat split. simpl. intros r [= <-]. reflexivity.
Qed.

(** With a number as the sentinel the comparison is between numbers, and the
    chain [[c1; c2]] does what its description says: a first correction that
    finds a value other than the sentinel ends the loop, [c2] is not
    called. *)
Lemma lookup_first_correction_number self term c1 c2 z v s1 s2 :
  _unknown self = PyInt z ->
  _correction self = Some [c1; c2] ->
  lookup_exact (Some term) self = (Return z, s1) ->
  lookup_exact (Some (c1 term)) s1 = (Return v, s2) ->
  v <> z ->
  lookup_traced (Some term) self = (Return (v, [0%nat]), s2).
Proof.
  intros Hu Hc H0 H1 Hv. unfold lookup_traced, lookup_exact in *. unfold bind at 1.
  rewrite H0.
  assert (Hu1 : _unknown s1 = PyInt z).
  { change s1 with (snd (Return z, s1)). rewrite <- H0, getitem_unknown. exact Hu. }
  assert (Hc1 : _correction s1 = Some [c1; c2]).
  { change s1 with (snd (Return z, s1)). rewrite <- H0, getitem_correction. exact Hc. }
  assert (Hu2 : _unknown s2 = PyInt z).
  { change s2 with (snd (Return v, s2)). rewrite <- H1, getitem_unknown. exact Hu1. }
  rewrite Hc1. simpl. rewrite Hu1. unfold py_ne. simpl. rewrite Z.eqb_refl. simpl.
  unfold bind at 1. rewrite H1. unfold bind, ret. rewrite Hu2. simpl.
  apply Z.eqb_neq in Hv. by rewrite Hv.
Qed.

(** C1.  On [VocabLookup(unknown=Unknown.gender, domain='Gender')] with the
    chain [[expand_m; c2]]: [lookup_exact('m')] is the unknown value,
    [lookup_exact(expand_m('m'))] is concept 1, and yet [lookup('m')]
    returns the unknown value: the loop compares the number with the member
    [Unknown.gender] itself, finds them different, and leaves before the
    first correction. *)
Theorem lookup_chain_not_applied :
  unknown_value (_unknown gender_lookup_corrected) = Some 4214687 /\
  _correction gender_lookup_corrected = Some [expand_m; fun _ => "female"] /\
  fst (lookup_exact (Some "m") gender_lookup_corrected) = Return 4214687 /\
  fst (lookup_exact (Some (expand_m "m")) gender_lookup_corrected) = Return 1 /\
  fst (lookup_exact (Some (expand_m "m"))
         (snd (lookup_exact (Some "m") gender_lookup_corrected))) = Return 1 /\
  fst (lookup (Some "m") gender_lookup_corrected) = Return 4214687 /\
  fst (lookup_traced (Some "m") gender_lookup_corrected) = Return (4214687, []).
Proof. repeat split; reflexivity. Qed.

End Corrected.

(** ** What a lookup does to the mapping *)

Section Frame.

Import Str VocabLookup Facts.

Lemma grown_subseteq a b : grown a b -> _lookup a ⊆ _lookup b.
Proof.
  intros [_ Hg]. apply map_subseteq_spec. intros k x Hk.
  destruct (Hg k) as [E|(N & _)]; congruence.
Qed.

Lemma grown_new a b k v :
  grown a b -> _lookup b !! k = Some v -> _lookup a !! k = None ->
  normalized k /\ attr_value (_unknown a) = Return v.
Proof.
  intros [_ Hg] Hb Ha. destruct (Hg k) as [E|(_ & Hn & v' & Hv' & Hu)].
  - congruence.
  - split; [exact Hn|congruence].
Qed.

Lemma lookup_object term self :
  snd (lookup term self) = snd (lookup_exact term self).
Proof.
  destruct (attr_value (_unknown self)) as [u|e] eqn:Hu.
  - pose proof (lookup_exact_returns term self u Hu) as (v & s' & He).
    assert (Hne : py_ne (PyInt v) (_unknown self) = true)
      by (destruct (_unknown self); try discriminate; reflexivity).
    destruct (lookup_break self term v s' He Hne) as [Hl _]. by rewrite Hl, He.
  - rewrite lookup_snd. unfold lookup_traced, lookup_exact, bind.
    set (key := strip (lower match term with Some s => s | None => "" end)).
    assert (Hg : snd (getitem key self) = self).
    { destruct (getitem_cases key self) as [v Hv|u Hk Hu'|e' Hk He']; simpl;
        [done|congruence|done]. }
    destruct (getitem key self) as [[v|e1] s1]; simpl in Hg |- *; subst s1; [|done].
    destruct (_correction self) as [cs|]; [|done].
    clear key. generalize 0%nat as pos. revert v.
    induction cs as [|c rest IH]; intros v pos; simpl; [done|].
    destruct (py_ne (PyInt v) (_unknown self)); [done|].
    unfold bind at 1.
    assert (Hc : snd (getitem (strip (lower (c match term with Some s => s | None => "" end))) self) = self).
    { destruct (getitem_cases
                  (strip (lower (c match term with Some s => s | None => "" end))) self)
        as [v' Hv|u Hk Hu'|e' Hk He']; simpl; [done|congruence|done]. }
    destruct (getitem (strip (lower (c match term with Some s => s | None => "" end))) self)
      as [[v1|e1] s1]; simpl in Hc |- *; subst s1; [|done].
    unfold bind, ret. specialize (IH v1 (S pos)).
    by destruct (apply_corrections _ rest (S pos) v1 self) as [[r|e2] s2].
Qed.

Lemma lookup_raises_fixed term self e :
  fst (lookup term self) = Raise e -> snd (lookup term self) = self.
Proof.
  intros Hr. destruct (attr_value (_unknown self)) as [u|e'] eqn:Hu.
  - pose proof (lookup_exact_returns term self u Hu) as (v & s' & He).
    assert (Hne : py_ne (PyInt v) (_unknown self) = true)
      by (destruct (_unknown self); try discriminate; reflexivity).
    destruct (lookup_break self term v s' He Hne) as [Hl _].
    rewrite Hl in Hr. discriminate.
  - rewrite lookup_object. unfold lookup_exact.
    destruct (getitem_cases
                (strip (lower match term with Some s => s | None => "" end)) self)
      as [v' Hv|u Hk Hu'|e'' Hk He']; simpl; [done|congruence|done].
Qed.

(** C6, as the code has it.  A lookup never removes or changes an entry of
    the mapping.  The one change that [lookup_exact(t)] or [lookup(t)] can
    make is to add the normalized term itself with the value of the
    sentinel: that happens when the key is absent and the sentinel has a
    value.  Either call leaves the object exactly as it was when the
    normalized term is already a key, and when the call raises; and
    [lookup(t)] leaves the object exactly as [lookup_exact(t)] does (the
    keys of corrected terms are never added). *)
Theorem lookups_only_add_defaults (self : t) (term : option string) :
  _lookup self ⊆ _lookup (snd (lookup_exact term self)) /\
  _lookup self ⊆ _lookup (snd (lookup term self)) /\
  (forall k v,
     _lookup (snd (lookup_exact term self)) !! k = Some v ->
     _lookup self !! k = None ->
     k = normalize (match term with Some s => s | None => "" end) /\
     attr_value (_unknown self) = Return v) /\
  (forall k v,
     _lookup (snd (lookup term self)) !! k = Some v ->
     _lookup self !! k = None ->
     normalized k /\ attr_value (_unknown self) = Return v) /\
  (is_Some (_lookup self !! normalize (match term with Some s => s | None => "" end)) ->
   snd (lookup_exact term self) = self) /\
  (forall e, fst (lookup_exact term self) = Raise e ->
   snd (lookup_exact term self) = self) /\
  (forall u,
     _lookup self !! normalize (match term with Some s => s | None => "" end) = None ->
     attr_value (_unknown self) = Return u ->
     _lookup (snd (lookup_exact term self))
       = <[normalize (match term with Some s => s | None => "" end) := u]> (_lookup self)) /\
  snd (lookup term self) = snd (lookup_exact term self) /\
  (forall k v,
     _lookup (snd (lookup term self)) !! k = Some v ->
     _lookup self !! k = None ->
     k = normalize (match term with Some s => s | None => "" end) /\
     attr_value (_unknown self) = Return v) /\
  (is_Some (_lookup self !! normalize (match term with Some s => s | None => "" end)) ->
   snd (lookup term self) = self) /\
  (forall e, fst (lookup term self) = Raise e -> snd (lookup term self) = self) /\
  (forall u,
     _lookup self !! normalize (match term with Some s => s | None => "" end) = None ->
     attr_value (_unknown self) = Return u ->
     _lookup (snd (lookup term self))
       = <[normalize (match term with Some s => s | None => "" end) := u]> (_lookup self)).
Proof.
  set (key := normalize (match term with Some s => s | None => "" end)).
  assert (Hcases : getitem_spec key self (lookup_exact term self))
    by apply getitem_cases.
  assert (Hnew : forall k v,
     _lookup (snd (lookup_exact term self)) !! k = Some v ->
     _lookup self !! k = None ->
     k = key /\ attr_value (_unknown self) = Return v).
  { intros k v Hs Hn.
    destruct Hcases as [v' Hv'|u Hk Hu|e Hk He]; simpl in Hs; [congruence| |congruence].
    destruct (decide (key = k)) as [<-|Hne].
    + rewrite lookup_insert_eq in Hs. split; [done|congruence].
    + rewrite lookup_insert_ne in Hs by done. congruence. }
  assert (Hhit : is_Some (_lookup self !! key) -> snd (lookup_exact term self) = self).
  { intros [v Hv]. destruct Hcases as [v' Hv'|u Hk Hu|e Hk He]; simpl; congruence. }
  assert (Hadd : forall u, _lookup self !! key = None ->
     attr_value (_unknown self) = Return u ->
     _lookup (snd (lookup_exact term self)) = <[key := u]> (_lookup self)).
  { intros u Hk Hu.
    destruct Hcases as [v' Hv'|u' Hk' Hu'|e' Hk' He']; simpl; congruence. }
  split; [apply grown_subseteq, lookup_exact_grown|].
  split; [apply grown_subseteq, lookup_grown|].
  split; [exact Hnew|].
  split; [intros k v Hs Hn; eapply grown_new; [apply lookup_grown|exact Hs|exact Hn]|].
  split; [exact Hhit|].
  split.
  { intros e He. destruct Hcases as [v' Hv'|u Hk Hu|e' Hk He']; simpl in *; congruence. }
  split; [exact Hadd|].
  split; [apply lookup_object|].
  rewrite (lookup_object term self).
  split; [exact Hnew|]. split; [exact Hhit|].
  split; [|exact Hadd].
  intros e He. rewrite <- (lookup_object term self). by eapply lookup_raises_fixed.
Qed.

(** C6, as the specification has it, fails: on the gender lookup the term
    'Unknown' is no key; [lookup_exact] and [lookup] both store it. *)
Lemma lookup_exact_adds_key :
  _lookup gender_lookup !! "unknown" = None /\
  _lookup (snd (lookup_exact (Some "Unknown") gender_lookup)) !! "unknown"
    = Some 4214687 /\
  _lookup (snd (lookup (Some "Unknown") gender_lookup)) !! "unknown"
    = Some 4214687 /\
  _lookup (snd (lookup_exact (Some "Unknown") gender_lookup)) <> _lookup gender_lookup /\
  _lookup (snd (lookup (Some "Unknown") gender_lookup)) <> _lookup gender_lookup.
Proof.
  assert (H0 : _lookup gender_lookup !! "unknown" = None) by reflexivity.
  assert (H1 : _lookup (snd (lookup_exact (Some "Unknown") gender_lookup)) !! "unknown"
               = Some 4214687) by reflexivity.
  assert (H2 : _lookup (snd (lookup (Some "Unknown") gender_lookup)) !! "unknown"
               = Some 4214687) by reflexivity.
  repeat split; try assumption; intros E.
  - rewrite E in H1. congruence.
  - rewrite E in H2. congruence.
Qed.

End Frame.

(** ** Hierarchical expansion *)

Section Hierarchy.

Import Vocabulary Str VocabLookup Facts.

(** C3.  Over the graph P -> A -> B (no relationship leaves B), the
    constructor seeded with P raises [TypeError] at its call of
    [get_lookup]; the mapping of the object it was building is empty: no
    entry for 'a', none for 'b'. *)
Theorem hierarchy_collects_nothing :
  edge chain_session 10 11 /\
  edge chain_session 11 12 /\
  (forall x, ~ edge chain_session 12 x) /\
  __init__ (ConceptEnum.the ConceptEnum.Unknown "generic") (Some seed_P) None
    chain_session = (Raise TypeError, seeded_lookup) /\
  _lookup seeded_lookup = ∅ /\
  _lookup seeded_lookup !! normalize "A" = None /\
  _lookup seeded_lookup !! normalize "B" = None.
Proof.
  split; [|split; [|split]].
  - eexists. split; [left; reflexivity|]. by simpl.
  - eexists. split; [right; left; reflexivity|]. by simpl.
  - intros x (r & Hr & H1 & _). simpl in Hr.
    destruct Hr as [<-|[<-|[]]]; simpl in H1; discriminate.
  - repeat split; reflexivity.
Qed.

(** A table whose relationships all go down a rank has no cycle. *)
Lemma ranked_acyclic session (rank : Z -> nat) :
  (forall a b, edge session a b -> (rank b < rank a)%nat) -> acyclic session.
Proof.
  intros Hrank.
  assert (H : forall a b, clos_trans Z (edge session) a b -> (rank b < rank a)%nat).
  { induction 1 as [a b He|a b c _ IH1 _ IH2]; [by apply Hrank|lia]. }
  intros x Hx. apply H in Hx. lia.
Qed.

Lemma chain_session_acyclic : acyclic chain_session.
Proof.
  apply (ranked_acyclic _ (fun x => Z.to_nat (20 - x))).
  intros a b (r & Hr & <- & <- & _). simpl in Hr.
  destruct Hr as [<-|[<-|[]]]; simpl; lia.
Qed.

(** The three ways in which a call of the traversal ends, whatever the
    relationships: a query has no length; an empty sequence of children
    returns [concepts]; with a first child, [get_children] is handed its id
    alone and [in_()] refuses it, before any recursive call. *)
Lemma traversal_outcome fuel children concepts session :
  get_all_concepts_in_hierarchy (S fuel) children concepts session =
    Some (match children with
          | Unexecuted _ => Raise TypeError
          | Rows [] => Return (Some concepts)
          | Rows (_ :: _) => Raise ArgumentError
          end).
Proof. destruct children as [[|child rest]|q]; reflexivity. Qed.

(** C7.  The table P -> A -> B has no cycle.  Handed the children of P, the
    traversal does not go on until a query comes back empty: it stops at the
    first child, where [get_children] raises [ArgumentError]; handed the
    query that [get_children] returns for P, it stops at [len()] with
    [TypeError]; and [get_lookup] raises before the traversal starts. *)
Theorem traversal_stops_at_first_child :
  acyclic chain_session /\
  get_children [10] chain_session
    = [ {| Row.concept_id_1 := 10; Row.concept_id_2 := 11 |} ] /\
  (forall fuel,
     get_all_concepts_in_hierarchy (S fuel) (Rows (get_children [10] chain_session)) []
       chain_session = Some (Raise ArgumentError)) /\
  call_get_children (Ids [10]) chain_session
    = Return {| rows := get_children [10] chain_session |} /\
  (forall fuel,
     get_all_concepts_in_hierarchy (S fuel)
       (Unexecuted {| rows := get_children [10] chain_session |}) [] chain_session
       = Some (Raise TypeError)) /\
  (forall fuel,
     get_lookup fuel chain_session seeded_lookup
       = Some (Raise ArgumentError, seeded_lookup)).
Proof.
  split; [exact chain_session_acyclic|].
  repeat split; intros; reflexivity.
Qed.

End Hierarchy.

(** ** The concept catalog *)

Section Catalog.

Import ConceptEnum.

(** A canonical declaration is the first one of the class body with its
    value. *)
Lemma in_canonical seen decls d :
  In d (canonical seen decls) ->
  existsb (Z.eqb (snd d)) seen = false /\
  find (fun d' => snd d' =? snd d) decls = Some d.
Proof.
  revert seen. induction decls as [|[n w] rest IH]; intros seen; simpl; [done|].
  destruct (existsb (Z.eqb w) seen) eqn:Hw.
  - intros Hd. destruct (IH _ Hd) as [Hs Hf]. split; [done|].
    destruct (w =? snd d) eqn:E; [|done].
    apply Z.eqb_eq in E. subst w. congruence.
  - intros [<-|Hd]; simpl.
    + by rewrite Z.eqb_refl.
    + destruct (IH _ Hd) as [Hs Hf]. simpl in Hs.
      apply orb_false_iff in Hs as [Hne Hs]. split; [done|].
      by rewrite Z.eqb_sym, Hne.
Qed.

Lemma find_canonical seen decls v :
  find (fun d => snd d =? v) (canonical seen decls) =
    if existsb (Z.eqb v) seen then None else find (fun d => snd d =? v) decls.
Proof.
  revert seen. induction decls as [|[n w] rest IH]; intros seen; simpl.
  - by destruct (existsb (Z.eqb v) seen).
  - destruct (existsb (Z.eqb w) seen) eqn:Hw.
    + rewrite IH. destruct (existsb (Z.eqb v) seen) eqn:Hv; [done|].
      destruct (w =? v) eqn:E; [|done]. apply Z.eqb_eq in E. congruence.
    + simpl. destruct (w =? v) eqn:E.
      * apply Z.eqb_eq in E. subst w. by rewrite Hw.
      * rewrite IH. simpl. by rewrite Z.eqb_sym, E.
Qed.

Lemma find_members cls v :
  find (fun m => py_eq (PyInt v) (PyEnum m) || py_eq (PyInt v) (PyInt (value m)))
       (members cls)
  = option_map (fun d => Member (class_name cls) (fst d) (snd d))
      (find (fun d => snd d =? v) (body cls)).
Proof.
  unfold members. pose proof (find_canonical [] (body cls) v) as Hc. simpl in Hc.
  rewrite <- Hc. clear Hc.
  induction (canonical [] (body cls)) as [|d l IH]; simpl; [done|].
  rewrite (Z.eqb_sym v). by destruct (snd d =? v).
Qed.

Lemma distinct_names_value (decls : list (string * Z)) n a b :
  List.NoDup (map fst decls) -> In (n, a) decls -> In (n, b) decls -> a = b.
Proof.
  induction decls as [|[n' w] rest IH]; simpl; [done|].
  intros Hnd. inversion Hnd as [|? ? Hnin Hnd']; subst.
  intros [Ha|Ha] [Hb|Hb].
  - congruence.
  - injection Ha as -> ->. destruct Hnin. apply in_map_iff. by exists (n, b).
  - injection Hb as -> ->. destruct Hnin. apply in_map_iff. by exists (n, a).
  - by apply IH.
Qed.

(** X20.  In any class: the value of a declaration names the member declared
    first with it, and the name of a later declaration of the same value is
    no label. *)
Lemma first_declaration_wins cls n0 v :
  find (fun d => snd d =? v) (body cls) = Some (n0, v) ->
  get_name cls (PyInt v) = n0 /\
  call cls (PyInt v) = Return (Member (class_name cls) n0 v) /\
  forall n, n <> n0 -> In (n, v) (body cls) -> List.NoDup (map fst (body cls)) ->
            ~ In n (labels cls).
Proof.
  intros Hf.
  assert (Hc : call cls (PyInt v) = Return (Member (class_name cls) n0 v)).
  { unfold call. by rewrite find_members, Hf. }
  split; [unfold get_name; by rewrite Hc|]. split; [exact Hc|].
  intros n Hne Hin Hnd Hl. unfold labels, members in Hl.
  rewrite map_map in Hl. apply in_map_iff in Hl as ([n' w] & Hn & Hd). simpl in Hn.
  subst n'. apply in_canonical in Hd as [_ Hd]. simpl in Hd.
  pose proof (find_some _ _ Hd) as [Hin' _].
  assert (w = v) by (eapply distinct_names_value; eauto). subst w.
  congruence.
Qed.

(** C10.  In the three classes that declare one value twice or more, the
    later names are aliases: [labels()] leaves them out, [get_name] of the
    shared value is the name declared first, and the later name as an
    attribute is the member declared first. *)
Theorem duplicate_values_are_aliases :
  labels GroupStageConcepts = ["stage0"; "stageI"; "stageII"; "stageIII"] /\
  get_name GroupStageConcepts (PyInt 1633650) = "stageIII" /\
  attr GroupStageConcepts "stageIV" = attr GroupStageConcepts "stageIII" /\
  labels DiseaseEpisodeConcepts =
    ["episode_of_care"; "confined"; "invasive"; "metastatic"; "stable_disease";
     "disease_progression"; "partial_response"] /\
  get_name DiseaseEpisodeConcepts (PyInt 32947) = "partial_response" /\
  attr DiseaseEpisodeConcepts "complete_response"
    = attr DiseaseEpisodeConcepts "partial_response" /\
  labels TStageConcepts = ["t0"; "t1"; "t2"; "t3"; "t4"; "ta"] /\
  get_name TStageConcepts (PyInt 1635682) = "ta" /\
  attr TStageConcepts "tx" = attr TStageConcepts "ta" /\
  attr TStageConcepts "tis" = attr TStageConcepts "ta" /\
  attr TStageConcepts "ta"
    = Return {| cls_name := "TStageConcepts"; name := "ta"; value := 1635682 |}.
Proof. repeat split; reflexivity. Qed.

Lemma falsy_values val :
  truthy val = false ->
  val = PyNone \/ val = PyBool false \/ val = PyInt 0 \/ val = PyStr "".
Proof.
  destruct val as [|[]|z|s|m]; simpl; try discriminate; auto.
  - intros H. apply negb_false_iff, Z.eqb_eq in H. subst. auto.
  - intros H. apply negb_false_iff, String.eqb_eq in H. subst. auto.
Qed.

(** For a truthy argument the answer is the membership test. *)
Lemma is_member_truthy cls val :
  truthy val = true ->
  is_member cls val = py_in val (member_values cls) /\
  is_unknown val = py_in val (member_values Unknown).
Proof. unfold is_member, is_unknown, member_values. by intros ->. Qed.

(** C9.  For a falsy argument, which is one of [None], [False], [0] and
    [''], [is_member] of any class and [is_unknown] answer [True]: the
    members of the class are not consulted, so the answer is the same for a
    class without members, and [None], [0] and [''] pass [is_unknown]
    although none of them is the value of a member of [Unknown].  For a
    truthy argument, and only then, the answer is the membership test. *)
Theorem is_member_falsy (cls : EnumClass) (val : pyval) :
  (truthy val = false ->
   is_member cls val = true /\ is_unknown val = true /\
   is_member TreatmentModifiers val = true /\
   (val = PyNone \/ val = PyBool false \/ val = PyInt 0 \/ val = PyStr "")) /\
  (truthy val = true ->
   is_member cls val = py_in val (member_values cls) /\
   is_unknown val = py_in val (member_values Unknown)) /\
  (truthy PyNone = false /\ truthy (PyInt 0) = false /\ truthy (PyStr "") = false) /\
  (py_in PyNone (member_values Unknown) = false /\
   py_in (PyInt 0) (member_values Unknown) = false /\
   py_in (PyStr "") (member_values Unknown) = false).
Proof.
  split; [|split; [|by repeat split]].
  - intros H. unfold is_member, is_unknown. rewrite H. simpl.
    repeat split. by apply falsy_values.
  - apply is_member_truthy.
Qed.

Lemma is_member_falsy_witness :
  (is_member ModifierFields (PyInt 0) = true /\ is_unknown (PyInt 0) = true /\
   is_member TreatmentModifiers (PyInt 0) = true /\
   (PyInt 0 = PyNone \/ PyInt 0 = PyBool false \/ PyInt 0 = PyInt 0 \/
    PyInt 0 = PyStr "")) /\
  py_in (PyInt 0) (member_values ModifierFields) = false /\
  (is_member ModifierFields (PyInt 756290)
     = py_in (PyInt 756290) (member_values ModifierFields) /\
   is_unknown (PyInt 756290) = py_in (PyInt 756290) (member_values Unknown)) /\
  is_member ModifierFields (PyInt 756290) = true /\
  is_unknown (PyInt 756290) = false /\
  is_member Unknown (PyInt 5) = false.
Proof.
  split; [exact (proj1 (is_member_falsy ModifierFields (PyInt 0)) eq_refl)|].
  split; [reflexivity|].
  split; [exact (proj1 (proj2 (is_member_falsy ModifierFields (PyInt 756290))) eq_refl)|].
  repeat split; reflexivity.
Defined.

End Catalog.

(** * Further properties *)

(** ** The mapping that the domain scan builds *)

Section DomainScan.

Import Vocabulary Str VocabLookup Facts.

Lemma for_each_setitem (rows : list Concept) self :
  fst (for_each rows (fun row =>
         setitem (strip (lower (concept_name row))) (concept_id row)) self) = Return tt /\
  _unknown (snd (for_each rows (fun row =>
         setitem (strip (lower (concept_name row))) (concept_id row)) self))
    = _unknown self /\
  _correction (snd (for_each rows (fun row =>
         setitem (strip (lower (concept_name row))) (concept_id row)) self))
    = _correction self.
Proof.
  revert self. induction rows as [|row rest IH]; intros self; simpl; [done|].
  unfold bind, setitem at 1 3 5.
  destruct (IH (set_lookup (<[strip (lower (concept_name row)) := concept_id row]>
                              (_lookup self)) self)) as (H1 & H2 & H3).
  by rewrite H1, H2, H3.
Qed.

(** A key maps to the id of the last row that has it as its normalized
    name; a key that no row has keeps what it had. *)
Lemma for_each_setitem_last (l1 l2 : list Concept) row self :
  (forall r, In r l2 -> normalize (concept_name r) <> normalize (concept_name row)) ->
  _lookup (snd (for_each (l1 ++ row :: l2) (fun row =>
     setitem (strip (lower (concept_name row))) (concept_id row)) self))
    !! normalize (concept_name row) = Some (concept_id row).
Proof.
  revert self. induction l1 as [|a l1 IH]; intros self Hl2; simpl.
  - unfold bind, setitem at 1.
    set (s1 := set_lookup _ self).
    assert (Hs1 : _lookup s1 !! normalize (concept_name row) = Some (concept_id row))
      by (subst s1; simpl; apply lookup_insert_eq).
    clearbody s1. revert s1 Hs1. induction l2 as [|b l2 IH2]; intros s1 Hs1; simpl; [done|].
    unfold bind, setitem at 1. apply IH2.
    + intros r Hr. apply Hl2. by right.
    + simpl. rewrite lookup_insert_ne; [done|]. apply Hl2. by left.
  - unfold bind, setitem at 1. by apply IH.
Qed.

Lemma for_each_setitem_other (rows : list Concept) k self :
  (forall r, In r rows -> normalize (concept_name r) <> k) ->
  _lookup (snd (for_each rows (fun row =>
     setitem (strip (lower (concept_name row))) (concept_id row)) self)) !! k
    = _lookup self !! k.
Proof.
  revert self. induction rows as [|a rows IH]; intros self Hk; simpl; [done|].
  unfold bind, setitem at 1. rewrite IH.
  - simpl. rewrite lookup_insert_ne; [done|]. apply Hk. by left.
  - intros r Hr. apply Hk. by right.
Qed.

Lemma init_domain unknown d session :
  __init__ unknown None (Some d) session =
    for_each (domain_rows d session) (fun row =>
      setitem (strip (lower (concept_name row))) (concept_id row))
      {| _unknown := unknown; _lookup := ∅; _domain := Some d; _parent := None;
         _correction := None |}.
Proof. reflexivity. Qed.

(** X1.  [VocabLookup(unknown, domain=d)] returns normally, keeps the
    sentinel and has no chain.  Its mapping holds, under the normalized name
    of each concept of the domain, the id of the concept that comes last in
    the scan among those with that normalized name (a later row overwrites
    an earlier one), and it holds no other key. *)
Theorem domain_scan_last_wins unknown d session :
  fst (__init__ unknown None (Some d) session) = Return tt /\
  _unknown (snd (__init__ unknown None (Some d) session)) = unknown /\
  _correction (snd (__init__ unknown None (Some d) session)) = None /\
  (forall l1 row l2,
     domain_rows d session = l1 ++ row :: l2 ->
     (forall r, In r l2 -> normalize (concept_name r) <> normalize (concept_name row)) ->
     _lookup (snd (__init__ unknown None (Some d) session))
       !! normalize (concept_name row) = Some (concept_id row)) /\
  (forall k,
     (forall r, In r (concept session) -> domain_id r = d ->
                normalize (concept_name r) <> k) ->
     _lookup (snd (__init__ unknown None (Some d) session)) !! k = None).
Proof.
  rewrite init_domain.
  destruct (for_each_setitem (domain_rows d session)
              {| _unknown := unknown; _lookup := ∅; _domain := Some d; _parent := None;
                 _correction := None |}) as (H1 & H2 & H3).
  split; [exact H1|]. split; [exact H2|]. split; [exact H3|]. split.
  - intros l1 row l2 -> Hl2. by apply for_each_setitem_last.
  - intros k Hk. rewrite for_each_setitem_other; [apply lookup_empty|].
    intros r Hr. unfold domain_rows in Hr. apply filter_In in Hr as [Hr Hd].
    simpl in Hd. apply String.eqb_eq in Hd. by apply Hk.
Qed.

Lemma last_with_key (rows : list Concept) (k : string) :
  (exists r, In r rows /\ normalize (concept_name r) = k) ->
  exists l1 row' l2,
    rows = l1 ++ row' :: l2 /\ normalize (concept_name row') = k /\
    forall r, In r l2 -> normalize (concept_name r) <> k.
Proof.
  induction rows as [|a rows IH]; intros (r & Hr & Hk); [destruct Hr|].
  destruct (List.existsb (fun r' => String.eqb (normalize (concept_name r')) k) rows)
    eqn:Hex.
  - apply existsb_exists in Hex as (r' & Hr' & Hn). apply String.eqb_eq in Hn.
    destruct IH as (l1 & row' & l2 & -> & Hn' & Hl2); [by exists r'|].
    by exists (a :: l1), row', l2.
  - assert (Hnone : forall r', In r' rows -> normalize (concept_name r') <> k).
    { intros r' Hr' Hn. apply not_true_iff_false in Hex. apply Hex.
      apply existsb_exists. exists r'. split; [done|]. by apply String.eqb_eq. }
    destruct Hr as [->|Hrest].
    + by exists [], r, rows.
    + by destruct (Hnone _ Hrest).
Qed.

Lemma in_domain_rows_split d session row :
  In row (concept session) -> domain_id row = d ->
  (forall r, In r (concept session) -> domain_id r = d ->
     normalize (concept_name r) = normalize (concept_name row) ->
     concept_id r = concept_id row) ->
  exists l1 row' l2,
    domain_rows d session = l1 ++ row' :: l2 /\
    normalize (concept_name row') = normalize (concept_name row) /\
    concept_id row' = concept_id row /\
    forall r, In r l2 -> normalize (concept_name r) <> normalize (concept_name row').
Proof.
  intros Hin Hd Huniq.
  destruct (last_with_key (domain_rows d session) (normalize (concept_name row)))
    as (l1 & row' & l2 & Hsplit & Hn & Hl2).
  { exists row. split; [|done]. apply filter_In. split; [done|].
    simpl. by apply String.eqb_eq. }
  exists l1, row', l2. split; [done|]. split; [done|]. split.
  - assert (Hrow' : In row' (domain_rows d session))
      by (rewrite Hsplit; apply in_elt).
    apply filter_In in Hrow' as [Hr Hb]. simpl in Hb. apply String.eqb_eq in Hb.
    by apply Huniq.
  - by rewrite Hn.
Qed.

(** X2.  Round trip of the domain scan: when the concepts of the domain that
    share the normalized name of [row] share its id, a term that normalizes
    like the name of [row] is resolved to the id of [row], whatever the
    sentinel, and the call leaves the object as it was. *)
Theorem domain_scan_round_trip unknown d session row term :
  In row (concept session) ->
  domain_id row = d ->
  (forall r, In r (concept session) -> domain_id r = d ->
     normalize (concept_name r) = normalize (concept_name row) ->
     concept_id r = concept_id row) ->
  normalize term = normalize (concept_name row) ->
  lookup_exact (Some term) (snd (__init__ unknown None (Some d) session))
    = (Return (concept_id row), snd (__init__ unknown None (Some d) session)).
Proof.
  intros Hin Hd Huniq Hterm.
  destruct (in_domain_rows_split d session row Hin Hd Huniq)
    as (l1 & row' & l2 & Hsplit & Hn & Hid & Hl2).
  destruct (domain_scan_last_wins unknown d session) as (_ & _ & _ & Hlast & _).
  specialize (Hlast l1 row' l2 Hsplit Hl2).
  unfold lookup_exact, getitem.
  change (strip (lower term)) with (normalize term).
  by rewrite Hterm, <- Hn, Hlast, Hid.
Qed.

Lemma domain_scan_round_trip_witness :
  lookup_exact (Some "  FEMALE") gender_lookup = (Return 2, gender_lookup).
Proof.
  apply (domain_scan_round_trip (ConceptEnum.the ConceptEnum.Unknown "gender") "Gender"
           gender_session
           {| concept_id := 2; concept_name := "Female"; domain_id := "Gender" |}
           "  FEMALE").
  - simpl. auto.
  - reflexivity.
  - intros r Hr Hd Hn. simpl in Hr.
    destruct Hr as [<-|[<-|[<-|[]]]]; simpl in *; try reflexivity; discriminate.
  - reflexivity.
Defined.

(** X3.  A term whose normalized form is the name of no concept of the
    domain is a miss, also when a concept of another domain has the name:
    with a catalog member as the sentinel, [lookup_exact] returns the value
    of the member and stores it under the normalized term. *)
Theorem domain_scan_miss m d session term :
  (forall r, In r (concept session) -> domain_id r = d ->
     normalize (concept_name r) <> normalize term) ->
  fst (lookup_exact (Some term) (snd (__init__ (PyEnum m) None (Some d) session)))
    = Return (value m) /\
  _lookup (snd (lookup_exact (Some term)
                  (snd (__init__ (PyEnum m) None (Some d) session))))
    = <[normalize term := value m]>
        (_lookup (snd (__init__ (PyEnum m) None (Some d) session))).
Proof.
  intros Hnone.
  destruct (domain_scan_last_wins (PyEnum m) d session) as (_ & Hu & _ & _ & Hmiss).
  specialize (Hmiss (normalize term) Hnone).
  unfold lookup_exact.
  destruct (getitem_cases (strip (lower term))
              (snd (__init__ (PyEnum m) None (Some d) session)))
    as [v Hv|u Hk Hu'|e Hk He]; simpl.
  - unfold normalize in Hmiss. congruence.
  - rewrite Hu in Hu'. simpl in Hu'. injection Hu' as <-. done.
  - rewrite Hu in He. discriminate.
Qed.

Lemma domain_scan_miss_witness :
  fst (lookup_exact (Some "Breast") gender_lookup) = Return 4214687 /\
  _lookup (snd (lookup_exact (Some "Breast") gender_lookup))
    = <["breast" := 4214687]> (_lookup gender_lookup).
Proof.
  apply (domain_scan_miss
           {| cls_name := "Unknown"; name := "gender"; value := 4214687 |}
           "Gender" gender_session "Breast").
  intros r Hr Hd. simpl in Hr.
  destruct Hr as [<-|[<-|[<-|[]]]]; simpl in *; discriminate.
Defined.

(** X4.  A constructor call with a parent never returns: reading
    [parent.value] raises [AttributeError] when the parent is not a catalog
    member, and otherwise the call of [get_lookup] with three arguments
    raises [TypeError].  Either way the domain is not scanned and the
    mapping is empty.  Without a parent the constructor returns. *)
Theorem init_with_parent_raises unknown p domain session :
  fst (__init__ unknown (Some p) domain session)
    = Raise (match p with PyEnum _ => TypeError | _ => AttributeError end) /\
  _lookup (snd (__init__ unknown (Some p) domain session)) = ∅ /\
  fst (__init__ unknown None domain session) = Return tt.
Proof.
  split; [by destruct p|]. split; [by destruct p|].
  destruct domain as [d|]; [|reflexivity].
  by destruct (domain_scan_last_wins unknown d session) as (H & _).
Qed.


End DomainScan.

(** ** The accessor and the traversal *)

Section Descendants.

Import Vocabulary Str VocabLookup Facts.

Lemma in_get_children ids session row :
  In row (get_children ids session) <->
  exists r, In r (concept_relationship session) /\
            In (concept_id_1 r) ids /\
            relationship_id r = "Subsumes" /\
            row = {| Row.concept_id_1 := concept_id_1 r;
                     Row.concept_id_2 := concept_id_2 r |}.
Proof.
  unfold get_children.
  rewrite <- list_elem_of_In, elem_of_remove_dups, list_elem_of_In, in_map_iff.
  split.
  - intros (r & <- & Hr). apply filter_In in Hr as (Hr & Hb).
    apply andb_true_iff in Hb as (Hx & Hs).
    apply existsb_exists in Hx as (i & Hi & He). apply Z.eqb_eq in He.
    apply String.eqb_eq in Hs. exists r. subst i. auto.
  - intros (r & Hr & Hi & Hs & ->). exists r. split; [done|].
    apply filter_In. split; [done|]. apply andb_true_iff. split.
    + apply existsb_exists. exists (concept_id_1 r). split; [done|]. apply Z.eqb_refl.
    + by apply String.eqb_eq.
Qed.

(** X6.  [get_children] returns the pair of every 'Subsumes' relationship
    whose source is in the tuple, each pair once, and nothing else: no
    relationship of another kind, no other source.  For an empty tuple the
    result is empty. *)
Theorem get_children_exact ids session :
  (forall row,
     In row (get_children ids session) <->
     exists r, In r (concept_relationship session) /\
               In (concept_id_1 r) ids /\
               relationship_id r = "Subsumes" /\
               row = {| Row.concept_id_1 := concept_id_1 r;
                        Row.concept_id_2 := concept_id_2 r |}) /\
  NoDup (get_children ids session) /\
  get_children [] session = [].
Proof.
  split; [intros row; apply in_get_children|]. split; [apply NoDup_remove_dups|].
  destruct (get_children [] session) as [|row rest] eqn:E; [done|].
  assert (Hin : In row (get_children [] session)) by (rewrite E; by left).
  apply in_get_children in Hin as (r & _ & [] & _).
Qed.

(** X7.  A call of [get_all_concepts_in_hierarchy] ends in one of three
    ways, whatever the relationships are.  On a query object it raises
    [TypeError] ([len()]); on an empty sequence it returns [concepts]
    unchanged; on a sequence with a first child it raises [ArgumentError]
    when it asks for the children of that child, before any recursive call:
    the traversal never goes below the children it is handed. *)
Theorem traversal_never_descends fuel children concepts session :
  get_all_concepts_in_hierarchy (S fuel) children concepts session =
    Some (match children with
          | Unexecuted _ => Raise TypeError
          | Rows [] => Return (Some concepts)
          | Rows (_ :: _) => Raise ArgumentError
          end) /\
  (forall child, call_get_children (Single (PyInt (Row.concept_id_2 child))) session
                 = Raise ArgumentError) /\
  (forall ids, exists q, call_get_children (Ids ids) session = Return q /\
                         len (Unexecuted q) = Raise TypeError /\
                         rows q = get_children ids session).
Proof.
  split; [apply traversal_outcome|]. split; [done|].
  intros ids. eexists. repeat split.
Qed.

End Descendants.

(** ** The correction chain in general *)

Section Chain.

Import Vocabulary Str VocabLookup Facts.

Lemma getitem_stored key self v self' :
  getitem key self = (Return v, self') -> _lookup self' !! key = Some v.
Proof.
  destruct (getitem_cases key self) as [v' Hv|u Hk Hu|e Hk He]; intros [= <- <-].
  - done.
  - simpl. apply lookup_insert_eq.
Qed.

Lemma apply_corrections_log term cs : forall pos value self v log self',
  apply_corrections term cs pos value self = (Return (v, log), self') ->
  exists k,
    log = seq pos k /\ (k <= length cs)%nat /\
    ((k < length cs)%nat -> py_ne (PyInt v) (_unknown self) = true) /\
    (k = 0%nat -> v = value /\ self' = self) /\
    (forall c, (0 < k)%nat -> cs !! (k - 1)%nat = Some c ->
               _lookup self' !! normalize (c term) = Some v).
Proof.
  induction cs as [|c rest IH]; intros pos value self v log self'; simpl.
  - intros [= <- <- <-]. exists 0%nat. split; [done|]. split; [simpl; lia|].
    split; [simpl; lia|]. split; [done|]. intros; lia.
  - destruct (py_ne (PyInt value) (_unknown self)) eqn:Hne.
    + intros [= <- <- <-]. exists 0%nat. split; [done|]. split; [lia|].
      split; [done|]. split; [done|]. intros; lia.
    + unfold bind at 1.
      destruct (getitem (strip (lower (c term))) self) as [[v1|e] s1] eqn:Hg;
        [|discriminate].
      unfold bind, ret.
      destruct (apply_corrections term rest (S pos) v1 s1) as [[[v2 log2]|e] s2] eqn:Ha;
        [|discriminate].
      simpl. intros [= <- <- <-].
      destruct (IH _ _ _ _ _ _ Ha) as (k & Hlog & Hk & Hbreak & Hzero & Hlast).
      assert (Hu : _unknown s1 = _unknown self).
      { change s1 with (snd (Return v1, s1)). rewrite <- Hg. apply getitem_unknown. }
      exists (S k). split; [by rewrite Hlog|]. split; [lia|].
      split; [intros; rewrite <- Hu; apply Hbreak; lia|]. split; [lia|].
      intros c' _. destruct k as [|k]; simpl.
      * intros [= <-]. destruct (Hzero eq_refl) as [-> ->].
        by apply getitem_stored in Hg.
      * intros Hc'. apply Hlast; [lia|]. simpl. by rewrite Nat.sub_0_r.
Qed.

(** X9.  The corrections that [lookup] calls are the first [k] of the chain,
    in order and without a gap.  When the loop stopped before the end of the
    chain, the value returned differs from the sentinel in the sense of
    [!=]; when no correction was called it is the value of the exact lookup;
    otherwise it is what the mapping holds, after the call, under the
    normalized result of the last correction called. *)
Theorem corrections_called_in_order self term v log self' :
  lookup_traced term self = (Return (v, log), self') ->
  exists k,
    log = seq 0 k /\ (k <= length (chain_of self))%nat /\
    ((k < length (chain_of self))%nat -> py_ne (PyInt v) (_unknown self) = true) /\
    (k = 0%nat -> lookup_exact term self = (Return v, self')) /\
    (forall c, (0 < k)%nat -> chain_of self !! (k - 1)%nat = Some c ->
       _lookup self' !! normalize (c (match term with Some s => s | None => "" end))
         = Some v).
Proof.
  unfold lookup_traced, lookup_exact, chain_of. unfold bind.
  set (tm := match term with Some s => s | None => "" end).
  destruct (getitem (strip (lower tm)) self) as [[v0|e] s0] eqn:Hg; [|discriminate].
  assert (Hc : _correction s0 = _correction self).
  { change s0 with (snd (Return v0, s0)). rewrite <- Hg. apply getitem_correction. }
  assert (Hu : _unknown s0 = _unknown self).
  { change s0 with (snd (Return v0, s0)). rewrite <- Hg. apply getitem_unknown. }
  rewrite Hc. destruct (_correction self) as [cs|].
  - intros Ha. destruct (apply_corrections_log _ _ _ _ _ _ _ _ Ha)
      as (k & Hlog & Hk & Hbreak & Hzero & Hlast).
    exists k. split; [done|]. split; [done|]. split; [by rewrite <- Hu|].
    split; [|done]. intros Hk0. by destruct (Hzero Hk0) as [-> ->].
  - intros [= <- <- <-]. exists 0%nat. split; [done|]. split; [done|].
    split; [simpl; lia|]. split; [done|]. intros; lia.
Qed.

Lemma corrections_called_in_order_witness :
  exists k,
    [0%nat] = seq 0 k /\ (k <= length (chain_of number_lookup))%nat /\
    ((k < length (chain_of number_lookup))%nat ->
       py_ne (PyInt 7) (_unknown number_lookup) = true) /\
    (k = 0%nat ->
       lookup_exact (Some "No Matching Concept") number_lookup
         = (Return 7, number_lookup)) /\
    (forall c, (0 < k)%nat -> chain_of number_lookup !! (k - 1)%nat = Some c ->
       _lookup number_lookup !! normalize (c "No Matching Concept") = Some 7).
Proof.
  exact (corrections_called_in_order number_lookup (Some "No Matching Concept") 7
           [0%nat] number_lookup eq_refl).
Defined.

(** X10.  With a catalog member as the sentinel, [lookup] is [lookup_exact]
    whatever chain is assigned: same outcome, same object afterwards, and no
    correction is called. *)
Theorem chain_unused_with_member_sentinel self term m :
  _unknown self = PyEnum m ->
  lookup term self = lookup_exact term self /\
  exists v, lookup_traced term self = (Return (v, []), snd (lookup_exact term self)).
Proof.
  intros Hm. pose proof (lookup_exact_returns term self (value m)) as (v & s' & He).
  { by rewrite Hm. }
  destruct (lookup_break self term v s' He) as [Hl Ht]; [by rewrite Hm|].
  rewrite Hl, Ht, He. split; [done|]. by exists v.
Qed.

Lemma chain_unused_with_member_sentinel_witness :
  lookup (Some "m") gender_lookup_corrected
    = lookup_exact (Some "m") gender_lookup_corrected /\
  exists v, lookup_traced (Some "m") gender_lookup_corrected
            = (Return (v, []), snd (lookup_exact (Some "m") gender_lookup_corrected)).
Proof.
  exact (chain_unused_with_member_sentinel gender_lookup_corrected (Some "m")
           {| cls_name := "Unknown"; name := "gender"; value := 4214687 |} eq_refl).
Defined.

(** X11.  With a number [z] as the sentinel and the chain [[c1; c2]]: when
    the exact lookup of the term returns [z] and the lookup of [c1(term)]
    returns another value, [lookup] returns that value after calling [c1]
    only. *)
Theorem first_correction_wins_with_number self term c1 c2 z v s1 s2 :
  _unknown self = PyInt z ->
  _correction self = Some [c1; c2] ->
  lookup_exact (Some term) self = (Return z, s1) ->
  lookup_exact (Some (c1 term)) s1 = (Return v, s2) ->
  v <> z ->
  lookup (Some term) self = (Return v, s2) /\
  lookup_traced (Some term) self = (Return (v, [0%nat]), s2).
Proof.
  intros Hu Hc H0 H1 Hv.
  assert (Ht : lookup_traced (Some term) self = (Return (v, [0%nat]), s2)).
  { unfold lookup_traced, lookup_exact in *. unfold bind at 1. rewrite H0.
    assert (Hu1 : _unknown s1 = PyInt z).
    { change s1 with (snd (Return z, s1)). rewrite <- H0, getitem_unknown. exact Hu. }
    assert (Hc1 : _correction s1 = Some [c1; c2]).
    { change s1 with (snd (Return z, s1)). rewrite <- H0, getitem_correction. exact Hc. }
    assert (Hu2 : _unknown s2 = PyInt z).
    { change s2 with (snd (Return v, s2)). rewrite <- H1, getitem_unknown. exact Hu1. }
    rewrite Hc1. simpl. rewrite Hu1. unfold py_ne. simpl. rewrite Z.eqb_refl. simpl.
    unfold bind at 1. rewrite H1. unfold bind, ret. rewrite Hu2. simpl.
    apply Z.eqb_neq in Hv. by rewrite Hv. }
  split; [|exact Ht]. unfold lookup, bind, ret. by rewrite Ht.
Qed.

Lemma first_correction_wins_with_number_witness :
  lookup (Some "No Matching Concept") number_lookup = (Return 7, number_lookup) /\
  lookup_traced (Some "No Matching Concept") number_lookup
    = (Return (7, [0%nat]), number_lookup).
Proof.
  apply (first_correction_wins_with_number number_lookup "No Matching Concept"
           (fun _ => "male") (fun _ => "female") 0 7 number_lookup number_lookup).
  - reflexivity.
  - reflexivity.
  - reflexivity.
  - reflexivity.
  - discriminate.
Defined.

Lemma getitem_fixed key self e :
  attr_value (_unknown self) = Raise e -> snd (getitem key self) = self.
Proof.
  intros He. destruct (getitem_cases key self) as [v Hv|u Hk Hu|e' Hk He']; simpl;
    [done|congruence|done].
Qed.

Lemma apply_corrections_fixed term cs e : forall pos value self,
  attr_value (_unknown self) = Raise e ->
  snd (apply_corrections term cs pos value self) = self.
Proof.
  induction cs as [|c rest IH]; intros pos value self He; simpl; [done|].
  destruct (py_ne (PyInt value) (_unknown self)); [done|].
  unfold bind at 1. pose proof (getitem_fixed (strip (lower (c term))) self e He) as Hg.
  destruct (getitem (strip (lower (c term))) self) as [[v1|e1] s1]; simpl in Hg; subst s1;
    [|done].
  unfold bind, ret. specialize (IH (S pos) v1 self He).
  by destruct (apply_corrections term rest (S pos) v1 self) as [[r|e2] s2].
Qed.

Lemma lookup_fixed term self e :
  attr_value (_unknown self) = Raise e -> snd (lookup term self) = self.
Proof.
  intros He. rewrite lookup_snd. unfold lookup_traced, bind.
  set (tm := match term with Some s => s | None => "" end).
  pose proof (getitem_fixed (strip (lower tm)) self e He) as Hg.
  destruct (getitem (strip (lower tm)) self) as [[v|e1] s1]; simpl in Hg; subst s1;
    [|done].
  destruct (_correction self) as [cs|]; [|done]. by eapply apply_corrections_fixed.
Qed.

(** X12.  Lookups are repeatable: the same call made again, right after,
    has the same outcome and leaves the object as the first call left it.
    Only the first call of a term can change the mapping. *)
Theorem lookups_repeatable self term :
  lookup_exact term (snd (lookup_exact term self)) = lookup_exact term self /\
  lookup term (snd (lookup term self)) = lookup term self.
Proof.
  split; [unfold lookup_exact; apply getitem_again|].
  destruct (attr_value (_unknown self)) as [u|e] eqn:Hu.
  - pose proof (lookup_exact_returns term self u Hu) as (v & s' & He).
    assert (Hne : py_ne (PyInt v) (_unknown self) = true)
      by (destruct (_unknown self); try discriminate; reflexivity).
    destruct (lookup_break self term v s' He Hne) as [Hl _]. rewrite Hl. simpl.
    assert (Hu' : _unknown s' = _unknown self).
    { change s' with (snd (Return v, s')). rewrite <- He. apply getitem_unknown. }
    assert (He' : lookup_exact term s' = (Return v, s')).
    { pose proof (getitem_again
                    (strip (lower match term with Some s => s | None => "" end)) self)
        as Hag.
      unfold lookup_exact in *. rewrite He in Hag. exact Hag. }
    apply lookup_break; [exact He'|]. by rewrite Hu'.
  - by rewrite (lookup_fixed term self e Hu).
Qed.

(** X13.  With a catalog member as the sentinel, no use of a constructed
    instance makes a lookup raise: after any sequence of lookups and chain
    assignments, [lookup_exact] and [lookup] of any term ([None] or a
    string) return, and they return the same value. *)
Theorem member_sentinel_never_raises unknown domain session m self term :
  unknown = PyEnum m ->
  reachable (snd (__init__ unknown None domain session)) self ->
  exists v self',
    lookup_exact term self = (Return v, self') /\ lookup term self = (Return v, self').
Proof.
  intros -> Hr. apply reachable_grown in Hr as [Hu _].
  assert (Hm : _unknown self = PyEnum m).
  { rewrite Hu. destruct domain as [d|]; [|reflexivity].
    by destruct (domain_scan_last_wins (PyEnum m) d session) as (_ & H & _). }
  pose proof (lookup_exact_returns term self (value m)) as (v & s' & He).
  { by rewrite Hm. }
  exists v, s'. split; [done|].
  apply lookup_break; [done|]. by rewrite Hm.
Qed.

Lemma member_sentinel_never_raises_witness :
  exists v self',
    lookup_exact None (snd (lookup (Some "x") gender_lookup_corrected))
      = (Return v, self') /\
    lookup None (snd (lookup (Some "x") gender_lookup_corrected)) = (Return v, self').
Proof.
  apply (member_sentinel_never_raises (ConceptEnum.the ConceptEnum.Unknown "gender")
           (Some "Gender") gender_session
           {| cls_name := "Unknown"; name := "gender"; value := 4214687 |}).
  - reflexivity.
  - eapply rtc_l; [apply (step_set_correction (Some [expand_m; fun _ => "female"]))|].
    eapply rtc_l; [apply (step_lookup (Some "x"))|]. apply rtc_refl.
Defined.

End Chain.

(** ** Case and surrounding whitespace, for every term *)

Section Insensitive.

Import Str VocabLookup Facts.

Lemma lower_app a b : lower (a +:+ b) = lower a +:+ lower b.
Proof. induction a as [|c a IH]; simpl; [done|]. by rewrite IH. Qed.

Lemma blank_lower s : blank (lower s) = blank s.
Proof.
  induction s as [|c s IH]; simpl; [done|]. by rewrite isspace_lower_char, IH.
Qed.

Lemma lstrip_blank s : blank s = true -> lstrip s = "".
Proof.
  induction s as [|c s IH]; simpl; [done|].
  intros Hb. apply andb_true_iff in Hb as [-> Hs]. by apply IH.
Qed.

Lemma rstrip_blank s : blank s = true -> rstrip s = "".
Proof.
  induction s as [|c s IH]; simpl; [done|].
  intros Hb. apply andb_true_iff in Hb as [Hc Hs]. by rewrite (IH Hs), Hc.
Qed.

Lemma lstrip_blank_app pre s : blank pre = true -> lstrip (pre +:+ s) = lstrip s.
Proof.
  induction pre as [|c pre IH]; simpl; [done|].
  intros Hb. apply andb_true_iff in Hb as [-> Hs]. by apply IH.
Qed.

Lemma rstrip_app_blank s post : blank post = true -> rstrip (s +:+ post) = rstrip s.
Proof.
  intros Hb. induction s as [|c s IH]; simpl; [by apply rstrip_blank|]. by rewrite IH.
Qed.

Lemma strip_app_blank s post : blank post = true -> strip (s +:+ post) = strip s.
Proof.
  intros Hb. unfold strip. induction s as [|c s IH]; simpl.
  - change (rstrip (lstrip post) = ""). by rewrite (lstrip_blank post Hb).
  - destruct (isspace c); [exact IH|].
    change (String c (s +:+ post)) with (String c s +:+ post).
    by apply rstrip_app_blank.
Qed.

Lemma normalize_padded pre s post :
  blank pre = true -> blank post = true ->
  normalize (pre +:+ s +:+ post) = normalize s.
Proof.
  intros Hpre Hpost. unfold normalize, strip at 1.
  rewrite !lower_app, lstrip_blank_app by (by rewrite blank_lower).
  apply strip_app_blank. by rewrite blank_lower.
Qed.

(** X14.  [lookup_exact] does not see case or surrounding whitespace, for
    any term: two terms that are equal once lower-cased, one of them padded
    with whitespace on either side, are the same query on every instance
    (same outcome, same object afterwards). *)
Theorem lookup_exact_insensitive self s1 s2 pre post :
  lower s1 = lower s2 ->
  blank pre = true ->
  blank post = true ->
  lookup_exact (Some (pre +:+ s1 +:+ post)) self = lookup_exact (Some s2) self.
Proof.
  intros Hl Hpre Hpost. unfold lookup_exact.
  change (strip (lower (pre +:+ s1 +:+ post))) with (normalize (pre +:+ s1 +:+ post)).
  rewrite (normalize_padded pre s1 post Hpre Hpost). unfold normalize. by rewrite Hl.
Qed.

Lemma lookup_exact_insensitive_witness :
  lookup_exact (Some ("  " +:+ "BREAST" +:+ " ")) site_lookup
    = lookup_exact (Some "Breast") site_lookup /\
  fst (lookup_exact (Some "  BREAST ") site_lookup) = Return 3.
Proof.
  split; [|reflexivity].
  exact (lookup_exact_insensitive site_lookup "BREAST" "Breast" "  " " "
           eq_refl eq_refl eq_refl).
Defined.

End Insensitive.

(** ** Members, values and names *)

Section Members.

Import ConceptEnum.

Lemma canonical_values seen decls :
  List.NoDup (map snd (canonical seen decls)).
Proof.
  revert seen. induction decls as [|[n w] rest IH]; intros seen; simpl; [constructor|].
  destruct (existsb (Z.eqb w) seen) eqn:Hw; [apply IH|].
  simpl. constructor; [|apply IH].
  intros Hin. apply in_map_iff in Hin as (d & Hd & Hin).
  apply in_canonical in Hin as [Hs _]. simpl in Hs.
  apply orb_false_iff in Hs as [Hne _]. rewrite Hd, Z.eqb_refl in Hne. discriminate.
Qed.

Lemma in_members cls m :
  In m (members cls) ->
  cls_name m = class_name cls /\
  find (fun d => snd d =? value m) (body cls) = Some (name m, value m).
Proof.
  unfold members. intros Hin. apply in_map_iff in Hin as ([n v] & <- & Hd).
  apply in_canonical in Hd as [_ Hf]. simpl in *. done.
Qed.

(** X15.  For every member of a class, [get_name] of its value is its name
    and the class called on its value is the member; the value passes
    [is_member]; and no two members of a class have the same value, however
    the class body repeats values. *)
Theorem get_name_inverts_value cls m :
  In m (members cls) ->
  get_name cls (PyInt (value m)) = name m /\
  call cls (PyInt (value m)) = Return m /\
  is_member cls (PyInt (value m)) = true /\
  List.NoDup (map value (members cls)).
Proof.
  intros Hin. destruct (in_members cls m Hin) as [Hc Hf].
  assert (Hcall : call cls (PyInt (value m)) = Return m).
  { unfold call. rewrite find_members, Hf. simpl. destruct m; simpl in *. by subst. }
  split; [unfold get_name; by rewrite Hcall|]. split; [exact Hcall|]. split.
  - unfold is_member, py_in. apply orb_true_iff. right.
    apply existsb_exists. exists (PyInt (value m)). split.
    + apply in_map_iff. by exists m.
    + simpl. apply Z.eqb_refl.
  - unfold members. rewrite map_map. simpl.
    rewrite <- (map_map snd (fun v => v)), map_id. apply canonical_values.
Qed.

Lemma get_name_inverts_value_witness :
  get_name Unknown (PyInt 36768646) = "stage" /\
  call Unknown (PyInt 36768646)
    = Return {| cls_name := "Unknown"; name := "stage"; value := 36768646 |} /\
  is_member Unknown (PyInt 36768646) = true /\
  List.NoDup (map value (members Unknown)).
Proof.
  apply (get_name_inverts_value Unknown
           {| cls_name := "Unknown"; name := "stage"; value := 36768646 |}).
  simpl. auto 10.
Defined.

Lemma existsb_find {A} (p : A -> bool) (l : list A) :
  existsb p l = true <-> exists x, find p l = Some x.
Proof.
  induction l as [|a l IH]; simpl.
  - split; [discriminate|]. by intros [x Hx].
  - destruct (p a); simpl; [|exact IH]. split; [by exists a|done].
Qed.

(** X16.  For a truthy argument that is not itself a member object,
    [is_member] and [get_name] agree: the argument passes [is_member]
    exactly when the class called on it finds a member, and [get_name]
    gives the empty string (it never raises) exactly when no member is
    found. *)
Theorem is_member_agrees_with_get_name cls val :
  truthy val = true ->
  (forall m, val <> PyEnum m) ->
  (is_member cls val = true <-> exists m, call cls val = Return m) /\
  (is_member cls val = false -> get_name cls val = "") /\
  (forall m, call cls val = Return m -> get_name cls val = name m /\ In m (members cls)).
Proof.
  intros Ht Hval.
  assert (Hp : forall m, py_eq val (PyEnum m) || py_eq val (PyInt (value m))
                         = py_eq val (PyInt (value m))).
  { intros m. destruct val; try reflexivity. by destruct (Hval m0). }
  assert (Hmem : is_member cls val
                 = existsb (fun m => py_eq val (PyEnum m) || py_eq val (PyInt (value m)))
                     (members cls)).
  { unfold is_member, py_in. rewrite Ht. simpl.
    induction (members cls) as [|m l IH]; simpl; [done|]. by rewrite Hp, IH. }
  split; [|split].
  - rewrite Hmem, existsb_find. unfold call.
    destruct (find _ (members cls)) as [m|];
      (split; [intros (x & Hx)|intros (x & Hx)]); try done; by eauto.
  - intros Hf. unfold get_name, call.
    destruct (find _ (members cls)) as [m|] eqn:Hfind; [|done].
    assert (is_member cls val = true) by (rewrite Hmem; apply existsb_find; eauto).
    congruence.
  - intros m Hc. unfold get_name. rewrite Hc. split; [done|].
    unfold call in Hc. destruct (find _ (members cls)) as [m'|] eqn:Hfind; [|done].
    injection Hc as ->. by apply find_some in Hfind as [H _].
Qed.

Lemma is_member_agrees_with_get_name_witness :
  (is_member ModifierFields (PyInt 756290) = true <->
   exists m, call ModifierFields (PyInt 756290) = Return m) /\
  (is_member ModifierFields (PyInt 756290) = false ->
   get_name ModifierFields (PyInt 756290) = "") /\
  (forall m, call ModifierFields (PyInt 756290) = Return m ->
     get_name ModifierFields (PyInt 756290) = name m /\ In m (members ModifierFields)).
Proof.
  apply (is_member_agrees_with_get_name ModifierFields (PyInt 756290)).
  - reflexivity.
  - discriminate.
Defined.

(** X17.  A member object is not a value: [is_member] of any class and
    [is_unknown] answer [False] for a member object (also for a member of
    the class itself), while [get_name] of a member of the class gives its
    name. *)
Theorem member_object_is_not_member cls m :
  is_member cls (PyEnum m) = false /\
  is_unknown (PyEnum m) = false /\
  (In m (members cls) -> get_name cls (PyEnum m) = name m).
Proof.
  assert (Hin : forall l, py_in (PyEnum m) (map (fun s => PyInt (value s)) l) = false).
  { induction l as [|a l IH]; simpl; [done|exact IH]. }
  split; [exact (Hin (members cls))|].
  split; [exact (Hin (members Unknown))|].
  intros Hm. unfold get_name, call.
  destruct (find _ (members cls)) as [m'|] eqn:Hfind.
  - apply find_some in Hfind as [_ Hp]. simpl in Hp. rewrite orb_false_r in Hp.
    unfold same_member in Hp. apply andb_true_iff in Hp as [_ Hn].
    apply String.eqb_eq in Hn. done.
  - eapply find_none in Hfind; [|exact Hm]. simpl in Hfind.
    rewrite orb_false_r in Hfind. unfold same_member in Hfind.
    by rewrite !String.eqb_refl in Hfind.
Qed.

Lemma first_declaration_wins_witness :
  get_name TStageConcepts (PyInt 1635682) = "ta" /\
  call TStageConcepts (PyInt 1635682)
    = Return (Member (class_name TStageConcepts) "ta" 1635682) /\
  forall n, n <> "ta" -> In (n, 1635682) (body TStageConcepts) ->
            List.NoDup (map fst (body TStageConcepts)) -> ~ In n (labels TStageConcepts).
Proof.
  exact (first_declaration_wins TStageConcepts "ta" 1635682 eq_refl).
Defined.

End Members.

(** ** Agents of episodes *)

Section AgentsFacts.

Import JoinedMappers.

Context {Label : Type} `{Countable Label}.
Variable Event : Type.
Variable polymorphic_label : Event -> string.
Variable drug_label : Event -> outcome Label.

Lemma drug_labels_returns (sact_events : list Event) :
  (forall s, In s sact_events -> polymorphic_label s = "drug_exposure" ->
             exists l, drug_label s = Return l) ->
  exists ls,
    drug_labels Event polymorphic_label drug_label sact_events = Return ls /\
    forall l, In l ls <->
      exists s, In s sact_events /\ polymorphic_label s = "drug_exposure" /\
                drug_label s = Return l.
Proof.
  induction sact_events as [|s rest IH]; intros Hall; simpl.
  - exists []. split; [done|]. intros l. split; [intros []|]. by intros (s & [] & _).
  - destruct IH as (ls & Hls & Hin); [intros s' Hs'; apply Hall; by right|].
    rewrite Hls.
    destruct (String.eqb (polymorphic_label s) "drug_exposure") eqn:Hp.
    + apply String.eqb_eq in Hp. destruct (Hall s (or_introl eq_refl) Hp) as (l0 & Hl0).
      rewrite Hl0. exists (l0 :: ls). split; [done|]. intros l. simpl. rewrite Hin. split.
      * intros [<-|(s' & Hs' & Hp' & Hl')]; [by exists s; auto|]. exists s'. auto.
      * intros (s' & [<-|Hs'] & Hp' & Hl'); [left; congruence|]. right. by exists s'.
    + apply String.eqb_neq in Hp. exists ls. split; [done|]. intros l. rewrite Hin. split.
      * intros (s' & Hs' & Hp' & Hl'). exists s'. auto.
      * intros (s' & [<-|Hs'] & Hp' & Hl'); [done|]. by exists s'.
Qed.

(** X18.  When every event of the episode that is a drug exposure has a
    drug label, [episode_agents] returns, whatever the events of other kinds
    are (their label is never read): a list without repeats that holds
    exactly the labels of the drug exposure events. *)
Theorem episode_agents_exact (sact_events : list Event) :
  (forall s, In s sact_events -> polymorphic_label s = "drug_exposure" ->
             exists l, drug_label s = Return l) ->
  exists agents,
    episode_agents Event polymorphic_label drug_label sact_events = Return agents /\
    NoDup agents /\
    forall l, In l agents <->
      exists s, In s sact_events /\ polymorphic_label s = "drug_exposure" /\
                drug_label s = Return l.
Proof.
  intros Hall. destruct (drug_labels_returns sact_events Hall) as (ls & Hls & Hin).
  unfold episode_agents. rewrite Hls. eexists. split; [done|].
  split; [apply NoDup_elements|].
  intros l. rewrite <- Hin, <- !list_elem_of_In, elem_of_elements.
  apply elem_of_list_to_set.
Qed.

Lemma agents_of_returns (sact_episodes : list (list Event)) :
  (forall se s, In se sact_episodes -> In s se ->
     polymorphic_label s = "drug_exposure" -> exists l, drug_label s = Return l) ->
  exists ll,
    agents_of Event polymorphic_label drug_label sact_episodes = Return ll /\
    forall l, In l (concat ll) <->
      exists se s, In se sact_episodes /\ In s se /\
                   polymorphic_label s = "drug_exposure" /\ drug_label s = Return l.
Proof.
  induction sact_episodes as [|se rest IH]; intros Hall; simpl.
  - exists []. split; [done|]. intros l. split; [intros []|]. by intros (se & s & [] & _).
  - destruct (episode_agents_exact se) as (a & Ha & _ & Hina);
      [intros s Hs Hp; apply (Hall se s); [by left|done|done]|].
    destruct IH as (ll & Hll & Hin); [intros se' s Hse'; apply Hall; by right|].
    rewrite Ha, Hll. exists (a :: ll). split; [done|].
    intros l. simpl. rewrite in_app_iff, Hina, Hin. split.
    + intros [(s & Hs & Hp & Hl)|(se' & s & Hse' & Hs & Hp & Hl)].
      * exists se, s. auto.
      * exists se', s. auto.
    + intros (se' & s & [<-|Hse'] & Hs & Hp & Hl).
      * left. by exists s.
      * right. by exists se', s.
Qed.

(** X19.  Under the same condition on every episode of the person,
    [all_agents] returns a list without repeats that holds exactly the
    labels of the drug exposure events of all the episodes: a label used in
    several episodes appears once. *)
Theorem all_agents_exact (sact_episodes : list (list Event)) :
  (forall se s, In se sact_episodes -> In s se ->
     polymorphic_label s = "drug_exposure" -> exists l, drug_label s = Return l) ->
  exists agents,
    all_agents Event polymorphic_label drug_label sact_episodes = Return agents /\
    NoDup agents /\
    forall l, In l agents <->
      exists se s, In se sact_episodes /\ In s se /\
                   polymorphic_label s = "drug_exposure" /\ drug_label s = Return l.
Proof.
  intros Hall. destruct (agents_of_returns sact_episodes Hall) as (ll & Hll & Hin).
  unfold all_agents. rewrite Hll. eexists. split; [done|].
  split; [apply NoDup_elements|].
  intros l. rewrite <- Hin, <- !list_elem_of_In, elem_of_elements.
  apply elem_of_list_to_set.
Qed.

End AgentsFacts.

Lemma episode_agents_exact_witness :
  exists agents,
    JoinedMappers.episode_agents AgentsExample.event fst snd AgentsExample.first_cycle
      = Return agents /\
    NoDup agents /\
    forall l, In l agents <->
      exists s, In s AgentsExample.first_cycle /\ fst s = "drug_exposure" /\
                snd s = Return l.
Proof.
  apply (episode_agents_exact AgentsExample.event fst snd AgentsExample.first_cycle).
  intros s Hs Hp. simpl in Hs.
  destruct Hs as [<-|[<-|[<-|[<-|[]]]]]; simpl in *; try discriminate; eauto.
Defined.

Lemma all_agents_exact_witness :
  exists agents,
    JoinedMappers.all_agents AgentsExample.event fst snd
      [AgentsExample.first_cycle; AgentsExample.second_cycle] = Return agents /\
    NoDup agents /\
    forall l, In l agents <->
      exists se s, In se [AgentsExample.first_cycle; AgentsExample.second_cycle] /\
                   In s se /\ fst s = "drug_exposure" /\ snd s = Return l.
Proof.
  apply (all_agents_exact AgentsExample.event fst snd
           [AgentsExample.first_cycle; AgentsExample.second_cycle]).
  intros se s Hse Hs Hp. simpl in Hse.
  destruct Hse as [<-|[<-|[]]]; simpl in Hs.
  - destruct Hs as [<-|[<-|[<-|[<-|[]]]]]; simpl in *; try discriminate; eauto.
  - destruct Hs as [<-|[]]; simpl in *; eauto.
Defined.
